(** * Keep Notes client: session lifecycle and note CRUD

    A shallow embedding of the TypeScript client
    ([services/api.ts], [App.tsx], [components/HomePage.tsx]) and the
    properties of its session handling, error normalisation, note ordering
    and delete gate.

    Asynchronous functions are embedded as sequential computations in a
    state-and-exception monad: an [await] is a sequencing point, a rejected
    promise is a thrown completion.  One handler runs at a time, as in the
    single-threaded event loop when the triggering control is disabled for
    the duration of the call. *)

From Stdlib Require Import ZArith Lia.
From stdpp Require Import base option list gmap strings pretty sorting.

Open Scope Z_scope.
Set Warnings "-register-all".

(** ** JavaScript values *)

(** The values that travel through the client: [undefined] and what
    [JSON.parse] can produce.  Numbers are the integer-valued ones; no
    function of the client computes with fractions.  The fields of an
    object are kept in an association list with distinct keys, in property
    order. *)
Inductive Value : Type :=
| VUndefined
| VNull
| VBool (b : bool)
| VNum (z : Z)
| VStr (s : string)
| VArr (items : list Value)
| VObj (fields : list (string * Value)).

(** An [Error] object: its constructor name and its [message]. *)
Record JSError : Type := MkError { name : string; message : string }.

(** Completion of a call: a returned value or a thrown error. *)
Inductive Completion (A : Type) : Type :=
| Normal (a : A)
| Throw (e : JSError).
Arguments Normal {A} a.
Arguments Throw {A} e.

(** [!!v] of the language: every value but [undefined], [null], [false],
    [0] and the empty string is truthy. *)
Definition truthy (v : Value) : bool :=
  match v with
  | VUndefined | VNull => false
  | VBool b => b
  | VNum z => negb (z =? 0)
  | VStr s => negb (String.eqb s EmptyString)
  | VArr _ | VObj _ => true
  end.

(** [a || b]. *)
Definition js_or (a b : Value) : Value := if truthy a then a else b.

Definition join (sep : string) (parts : list string) : string :=
  match parts with
  | [] => EmptyString
  | p :: rest => fold_left (fun acc q => acc +:+ sep +:+ q) rest p
  end.

(** The abstract operation ToString, as used by template literals,
    [new Error(v)] and [localStorage.setItem].  An array joins the strings
    of its elements with commas, [null] and [undefined] elements giving the
    empty string. *)
Fixpoint ToString (v : Value) : string :=
  match v with
  | VUndefined => "undefined"
  | VNull => "null"
  | VBool true => "true"
  | VBool false => "false"
  | VNum z => pretty z
  | VStr s => s
  | VArr items =>
      join "," (map (fun x => match x with
                              | VUndefined | VNull => EmptyString
                              | _ => ToString x
                              end) items)
  | VObj _ => "[object Object]"
  end.

Fixpoint assoc (k : string) (fields : list (string * Value)) : option Value :=
  match fields with
  | [] => None
  | (k', v) :: rest => if String.eqb k k' then Some v else assoc k rest
  end.

(** [v.p] for a property name [p] that no prototype defines ([detail],
    [access_token], [last_update], ...): a TypeError on [undefined] and
    [null], the own property of an object, [undefined] otherwise. *)
Definition getProp (v : Value) (p : string) : Completion Value :=
  match v with
  | VUndefined | VNull =>
      Throw (MkError "TypeError"
               ("Cannot read properties of " +:+ ToString v +:+
                " (reading '" +:+ p +:+ "')"))
  | VObj fields => Normal (default VUndefined (assoc p fields))
  | _ => Normal VUndefined
  end.

(** Equality of values is decidable; it stands for [Object.is] where React
    compares the dependencies of an effect. *)
Definition Value_eq_dec : ∀ x y : Value, {x = y} + {x ≠ y}.
Proof.
  fix IH 1. intros x y.
  destruct x as [| |b|z|s|xs|xs], y as [| |b'|z'|s'|ys|ys];
    try (right; discriminate); try (left; reflexivity).
  - destruct (decide (b = b')); [left; congruence | right; congruence].
  - destruct (decide (z = z')); [left; congruence | right; congruence].
  - destruct (decide (s = s')); [left; congruence | right; congruence].
  - assert (Hl : {xs = ys} + {xs ≠ ys}).
    { revert ys. induction xs as [|x xs IHxs]; intros [|y ys];
        try (right; discriminate); try (left; reflexivity).
      destruct (IH x y); [|right; congruence].
      destruct (IHxs ys); [left; congruence | right; congruence]. }
    destruct Hl; [left; congruence | right; congruence].
  - assert (Hl : {xs = ys} + {xs ≠ ys}).
    { revert ys. induction xs as [|[k x] xs IHxs]; intros [|[k' y] ys];
        try (right; discriminate); try (left; reflexivity).
      destruct (decide (k = k')); [|right; congruence].
      destruct (IH x y); [|right; congruence].
      destruct (IHxs ys); [left; congruence | right; congruence]. }
    destruct Hl; [left; congruence | right; congruence].
Defined.
#[global] Instance Value_eq_decision : EqDecision Value := Value_eq_dec.

(** ** The monad of handlers *)

(** A computation over a mutable state [S] that returns or throws.  Effects
    made before a throw stay made. *)
Definition M (S A : Type) : Type := S → Completion A * S.

Definition ret {S A} (a : A) : M S A := fun s => (Normal a, s).

Definition bind {S A B} (m : M S A) (k : A → M S B) : M S B :=
  fun s => match m s with
           | (Normal a, s') => k a s'
           | (Throw e, s') => (Throw e, s')
           end.

Definition throw {S A} (e : JSError) : M S A := fun s => (Throw e, s).

Definition liftC {S A} (c : Completion A) : M S A := fun s => (c, s).

Definition gets {S A} (f : S → A) : M S A := fun s => (Normal (f s), s).

Definition modify {S} (f : S → S) : M S unit := fun s => (Normal tt, f s).

(** [try { body } catch (e) { handler e }]. *)
Definition try_catch {S A} (body : M S A) (handler : JSError → M S A) : M S A :=
  fun s => match body s with
           | (Normal a, s') => (Normal a, s')
           | (Throw e, s') => handler e s'
           end.

(** [try { body } finally { fin }]. *)
Definition try_finally {S A} (body : M S A) (fin : M S unit) : M S A :=
  fun s => match body s with
           | (r, s') => match fin s' with
                        | (Normal _, s'') => (r, s'')
                        | (Throw e, s'') => (Throw e, s'')
                        end
           end.

(** A computation on one component of the state, run inside a larger one. *)
Definition zoom {S T A} (get : S → T) (put : T → S → S) (m : M T A) : M S A :=
  fun s => match m (get s) with
           | (r, t') => (r, put t' s)
           end.

Declare Scope js_scope.
Delimit Scope js_scope with js.
Notation "'let*' x ':=' m 'in' k" := (bind m (fun x => k))
  (at level 10, x name, m at level 100, k at level 200) : js_scope.
Notation "m ';;;' k" := (bind m (fun _ => k))
  (at level 100, k at level 200, right associativity) : js_scope.
Open Scope js_scope.

(** ** The browser and the outside world *)

Record Request : Type := MkRequest {
  method : string;
  url : string;
  headers : list (string * string);
  body : option string
}.

(** What [response.json()] settles to: a rejection when the body is empty
    or is not JSON, the parsed value otherwise. *)
Inductive Body : Type :=
| Unparseable (reason : JSError)
| Json (v : Value).

Record Response : Type := MkResponse { status : Z; payload : Body }.

(** [response.ok]. *)
Definition ok (r : Response) : bool := (200 <=? status r) && (status r <=? 299).

(** What [fetch] settles to: a rejection (no connection, CORS, ...) or a
    response. *)
Inductive FetchOutcome : Type :=
| NetworkError (e : JSError)
| Responded (r : Response).

(** Built-ins of the platform that the client calls and whose text output
    no property below depends on. *)
Class Platform : Type := {
  (** [JSON.stringify] on a value other than [undefined]. *)
  JSON_stringify : Value → string;
  (** [URLSearchParams.prototype.toString]. *)
  URLSearchParams_toString : list (string * string) → string;
  (** [Date.parse]: the time value in milliseconds, [None] for NaN. *)
  Date_parse : string → option Z
}.

(** The state outside the components.  [server] answers a request from the
    requests made before it, so that a backend with a database is one such
    function; [operator] is the person answering [window.confirm].
    [requests], [storageLog], [confirms], [alerts] and [console] record what
    the client did, oldest first; [storageLog] holds every content
    [localStorage] had before the current one. *)
Record World : Type := MkWorld {
  localStorage : gmap string string;
  storageLog : list (gmap string string);
  server : list Request → Request → FetchOutcome;
  requests : list Request;
  operator : list (string * bool) → string → bool;
  confirms : list (string * bool);
  alerts : list string;
  console : list string
}.

Definition set_localStorage (st : gmap string string) (w : World) : World :=
  MkWorld st (storageLog w ++ [localStorage w]) (server w) (requests w)
          (operator w) (confirms w) (alerts w) (console w).

Definition add_request (r : Request) (w : World) : World :=
  MkWorld (localStorage w) (storageLog w) (server w) (requests w ++ [r])
          (operator w) (confirms w) (alerts w) (console w).

Definition add_confirm (q : string) (a : bool) (w : World) : World :=
  MkWorld (localStorage w) (storageLog w) (server w) (requests w)
          (operator w) (confirms w ++ [(q, a)]) (alerts w) (console w).

Definition add_alert (msg : string) (w : World) : World :=
  MkWorld (localStorage w) (storageLog w) (server w) (requests w)
          (operator w) (confirms w) (alerts w ++ [msg]) (console w).

Definition add_console (msg : string) (w : World) : World :=
  MkWorld (localStorage w) (storageLog w) (server w) (requests w)
          (operator w) (confirms w) (alerts w) (console w ++ [msg]).

(** [localStorage.getItem(k)]: the stored string or [null]. *)
Definition getItem (k : string) : M World Value :=
  gets (fun w => match localStorage w !! k with
                 | Some s => VStr s
                 | None => VNull
                 end).

(** [localStorage.setItem(k, v)]: stores the string of [v]. *)
Definition setItem (k : string) (v : Value) : M World unit :=
  modify (fun w => set_localStorage (<[k := ToString v]> (localStorage w)) w).

(** [localStorage.removeItem(k)]. *)
Definition removeItem (k : string) : M World unit :=
  modify (fun w => set_localStorage (delete k (localStorage w)) w).

(** [fetch(url, init)]. *)
Definition fetch (r : Request) : M World Response :=
  fun w => match server w (requests w) r with
           | NetworkError e => (Throw e, add_request r w)
           | Responded resp => (Normal resp, add_request r w)
           end.

(** [window.confirm(q)]. *)
Definition confirm (q : string) : M World bool :=
  fun w => let a := operator w (confirms w) q in (Normal a, add_confirm q a w).

(** [alert(msg)]. *)
Definition alert (msg : string) : M World unit := modify (add_alert msg).

(** [console.error(label, e)]. *)
Definition console_error (label : string) (e : JSError) : M World unit :=
  modify (add_console (label +:+ " " +:+ name e +:+ ": " +:+ message e)).

(** [response.json()]. *)
Definition json (r : Response) : Completion Value :=
  match payload r with
  | Unparseable reason => Throw reason
  | Json v => Normal v
  end.

(** [JSON.stringify(v)], which is [undefined] on [undefined]. *)
Definition stringify `{Platform} (v : Value) : Value :=
  match v with
  | VUndefined => VUndefined
  | _ => VStr (JSON_stringify v)
  end.

(** The time value of [new Date(v)], [None] for an invalid date: a number
    is taken as the time value, [null] and booleans through their number,
    anything else through its string.  Time values are clipped to
    8.64e15 ms around the epoch. *)
Definition Date_time `{Platform} (v : Value) : option Z :=
  let clip t := if (Z.abs t <=? 8640000000000000) then Some t else None in
  match v with
  | VUndefined => None
  | VNull => Some 0
  | VBool b => Some (if b then 1 else 0)
  | VNum z => clip z
  | _ => t ← Date_parse (ToString v); clip t
  end.

(** [Array.prototype.sort(cmp)] on a fresh array.  The language requires
    the sort to be stable and to order by the sign of a consistent
    comparator and leaves the algorithm to the engine; this is insertion
    into the sorted rest, an element going before the first one it does not
    compare greater than.  [sort_unique] below shows that no other list
    meets the two requirements. *)
Fixpoint insert_sorted {A} (cmp : A → A → Z) (x : A) (l : list A) : list A :=
  match l with
  | [] => [x]
  | y :: rest => if cmp x y <=? 0 then x :: y :: rest
                 else y :: insert_sorted cmp x rest
  end.

Fixpoint sort {A} (cmp : A → A → Z) (l : list A) : list A :=
  match l with
  | [] => []
  | x :: rest => insert_sorted cmp x (sort cmp rest)
  end.

(** ** types.ts *)

(** A note as the client holds it.  [last_update] and [created_on] are
    strings produced by [toISOString]; the record keeps their time values
    in milliseconds, which [new Date(iso).getTime()] gives back.  The other
    fields are whatever the backend sent under these names. *)
Module types.
Record Note : Type := MkNote {
  id : Value;
  userId : Value;
  title : Value;
  content : Value;
  last_update : Z;
  created_on : Z
}.
End types.
Abbreviation Note := types.Note.

#[global] Instance Note_eq_decision : EqDecision Note.
Proof. solve_decision. Defined.

(** ** services/api.ts *)

Definition API_URL : string := "http://localhost:8000".

Definition getAuthHeaders : M World (list (string * string)) :=
  let* token := getItem "token" in
  if negb (truthy token) then ret []
  else ret [("Authorization", "Bearer " +:+ ToString token)].

Definition handleResponse (response : Response) : M World Value :=
  if negb (ok response) then
    let* errorData :=
      try_catch (liftC (json response))
        (fun _ => ret (VObj [("detail", VStr "An unknown error occurred.")])) in
    let* detail := liftC (getProp errorData "detail") in
    throw (MkError "Error"
             (ToString (js_or detail
                          (VStr ("HTTP error! status: " +:+ pretty (status response))))))
  else if status response =? 204 then ret VUndefined
  else liftC (json response).

(** [date.toISOString()]: a RangeError on an invalid date; otherwise the
    canonical string of the time value, which stands for it here. *)
Definition toISOString (t : option Z) : Completion Z :=
  match t with
  | Some t => Normal t
  | None => Throw (MkError "RangeError" "Invalid time value")
  end.

(** The own property [p] that the spread [...note] copies. *)
Definition own (note : Value) (p : string) : Value :=
  match note with
  | VObj fields => default VUndefined (assoc p fields)
  | _ => VUndefined
  end.

(** One element of [notesData.map(...)]: the object literal spreads [note]
    and then reads and normalises the two dates, [last_update] first.  Of
    the fields spread, the record keeps those of the [Note] type. *)
Definition normalizeNote `{Platform} (note : Value) : Completion Note :=
  match getProp note "last_update" with
  | Throw e => Throw e
  | Normal lu =>
      match toISOString (Date_time lu) with
      | Throw e => Throw e
      | Normal last =>
          match toISOString (Date_time (own note "created_on")) with
          | Throw e => Throw e
          | Normal created =>
              Normal (types.MkNote (own note "id") (own note "userId")
                             (own note "title") (own note "content")
                             last created)
          end
      end
  end.

(** [items.map(f)] for a callback that may throw. *)
Fixpoint mapC {A B} (f : A → Completion B) (items : list A) : Completion (list B) :=
  match items with
  | [] => Normal []
  | x :: rest =>
      match f x with
      | Throw e => Throw e
      | Normal y => match mapC f rest with
                    | Throw e => Throw e
                    | Normal ys => Normal (y :: ys)
                    end
      end
  end.

Module api.
Section api.
Context `{Platform}.

Definition getMe : M World Value :=
  let* headers := getAuthHeaders in
  let* response := fetch (MkRequest "GET" (API_URL +:+ "/users/me") headers None) in
  handleResponse response.

Definition login (email password : string) : M World (Value * Value) :=
  let formData := [("username", email); ("password", password)] in
  let* response :=
    fetch (MkRequest "POST" (API_URL +:+ "/login")
             [("Content-Type", "application/x-www-form-urlencoded")]
             (Some (URLSearchParams_toString formData))) in
  let* data := handleResponse response in
  let* token := liftC (getProp data "access_token") in
  setItem "token" token;;;
  let* user := getMe in
  setItem "user" (stringify user);;;
  ret (user, token).

Definition signup (username email password : string) : M World (Value * Value) :=
  let* response :=
    fetch (MkRequest "POST" (API_URL +:+ "/signup")
             [("Content-Type", "application/json")]
             (Some (JSON_stringify
                      (VObj [("username", VStr username); ("email", VStr email);
                             ("password", VStr password)])))) in
  handleResponse response;;;
  login email password.

Definition getNotesForUser : M World (list Note) :=
  let* headers := getAuthHeaders in
  let* response := fetch (MkRequest "GET" (API_URL +:+ "/notes") headers None) in
  let* notesData := handleResponse response in
  match notesData with
  | VArr items => liftC (mapC normalizeNote items)
  | VUndefined | VNull =>
      throw (MkError "TypeError"
               ("Cannot read properties of " +:+ ToString notesData +:+
                " (reading 'map')"))
  | _ => throw (MkError "TypeError" "notesData.map is not a function")
  end.

Definition createNote (title content : Value) : M World Value :=
  let* auth := getAuthHeaders in
  let* response :=
    fetch (MkRequest "POST" (API_URL +:+ "/notes")
             (("Content-Type", "application/json") :: auth)
             (Some (JSON_stringify
                      (VObj [("title", title); ("content", content)])))) in
  handleResponse response.

Definition updateNote (noteId title content : Value) : M World Value :=
  let* auth := getAuthHeaders in
  let* response :=
    fetch (MkRequest "PUT" (API_URL +:+ "/notes/" +:+ ToString noteId)
             (("Content-Type", "application/json") :: auth)
             (Some (JSON_stringify
                      (VObj [("title", title); ("content", content)])))) in
  handleResponse response.

Definition deleteNote (noteId : Value) : M World unit :=
  let* headers := getAuthHeaders in
  let* response :=
    fetch (MkRequest "DELETE" (API_URL +:+ "/notes/" +:+ ToString noteId) headers None) in
  handleResponse response;;;
  ret tt.
End api.
End api.

(** ** App.tsx: AuthProvider *)

Module AuthProvider.
Record State : Type := MkState { user : Value; token : Value; isLoading : bool }.

(** The three [useState] cells at mount. *)
Definition initial : State := MkState VNull VNull true.

Definition Ctx : Type := State * World.

Definition world {A} (m : M World A) : M Ctx A :=
  zoom snd (fun w c => (fst c, w)) m.
Definition setState (f : State → State) : M Ctx unit :=
  modify (fun c => (f (fst c), snd c)).

Definition setUser (u : Value) : M Ctx unit :=
  setState (fun s => MkState u (token s) (isLoading s)).
Definition setToken (t : Value) : M Ctx unit :=
  setState (fun s => MkState (user s) t (isLoading s)).
Definition setIsLoading (b : bool) : M Ctx unit :=
  setState (fun s => MkState (user s) (token s) b).

Definition isAuthenticated (s : State) : bool := truthy (user s).

Section AuthProvider.
Context `{Platform}.

Definition initAuth : M Ctx unit :=
  let* storedToken := world (getItem "token") in
  (if truthy storedToken then
     try_catch
       (let* currentUser := world api.getMe in
        setUser currentUser;;;
        setToken storedToken;;;
        world (setItem "user" (stringify currentUser)))
       (fun error =>
          world (console_error "Session validation failed:" error);;;
          world (removeItem "user");;;
          world (removeItem "token"))
   else ret tt);;;
  setIsLoading false.

Definition login (email password : string) : M Ctx unit :=
  let* r := world (api.login email password) in
  setUser (fst r);;;
  setToken (snd r).

Definition signup (username email password : string) : M Ctx unit :=
  let* r := world (api.signup username email password) in
  setUser (fst r);;;
  setToken (snd r).

Definition logout : M Ctx unit :=
  setUser VNull;;;
  setToken VNull;;;
  world (removeItem "user");;;
  world (removeItem "token").
End AuthProvider.
End AuthProvider.

(** ** components/HomePage.tsx *)

Definition dquote : string := String (Ascii.ascii_of_nat 34) EmptyString.

(** The modal is a child of the page: its handlers run the callbacks it
    gets as props on the state [P] of its parent. *)
Module NoteModal.
Record State : Type := MkState {
  title : Value;
  content : Value;
  isSaving : bool;
  isDeleting : bool
}.

Definition initial : State := MkState (VStr EmptyString) (VStr EmptyString) false false.

Record Props (P : Type) : Type := MkProps {
  isOpen : bool;
  onClose : M (P * World) unit;
  onSave : Value → Value → M (P * World) unit;
  onDelete : option (M (P * World) unit);
  note : option Note
}.
Arguments MkProps {P}.
Arguments isOpen {P}.
Arguments onClose {P}.
Arguments onSave {P}.
Arguments onDelete {P}.
Arguments note {P}.

Section NoteModal.
Context {P : Type}.

Definition Ctx : Type := State * (P * World).

Definition parent {A} (m : M (P * World) A) : M Ctx A :=
  zoom snd (fun p c => (fst c, p)) m.
Definition world {A} (m : M World A) : M Ctx A :=
  parent (zoom snd (fun w c => (fst c, w)) m).
Definition setState (f : State → State) : M Ctx unit :=
  modify (fun c => (f (fst c), snd c)).

Definition setTitle (v : Value) : M Ctx unit :=
  setState (fun s => MkState v (content s) (isSaving s) (isDeleting s)).
Definition setContent (v : Value) : M Ctx unit :=
  setState (fun s => MkState (title s) v (isSaving s) (isDeleting s)).
Definition setIsSaving (b : bool) : M Ctx unit :=
  setState (fun s => MkState (title s) (content s) b (isDeleting s)).
Definition setIsDeleting (b : bool) : M Ctx unit :=
  setState (fun s => MkState (title s) (content s) (isSaving s) b).

(** [note?.p || ''] *)
Definition field_or_empty (n : option Note) (p : Note → Value) : Value :=
  js_or (match n with Some n => p n | None => VUndefined end) (VStr EmptyString).

(** The body of the effect on [[isOpen, note]]. *)
Definition syncFields (props : Props P) : M Ctx unit :=
  if isOpen props then
    setTitle (field_or_empty (note props) types.title);;;
    setContent (field_or_empty (note props) types.content);;;
    setIsSaving false;;;
    setIsDeleting false
  else ret tt.

Definition handleSave (props : Props P) : M Ctx unit :=
  let* s := gets fst in
  setIsSaving true;;;
  parent (onSave props (title s) (content s));;;
  setIsSaving false.

Definition handleDelete (props : Props P) : M Ctx unit :=
  match onDelete props with
  | None => ret tt
  | Some del =>
      let* yes :=
        world (confirm ("Are you sure you want to delete " +:+ dquote +:+
                        ToString (match note props with
                                  | Some n => types.title n
                                  | None => VUndefined
                                  end) +:+ dquote +:+ "?")) in
      if yes then
        setIsDeleting true;;;
        try_finally (parent del) (setIsDeleting false)
      else ret tt
  end.
End NoteModal.
End NoteModal.

Module HomePage.
Record State : Type := MkState {
  notes : list Note;
  isLoading : bool;
  error : option string;
  isModalOpen : bool;
  editingNote : option Note
}.

Definition initial : State := MkState [] true None false None.

Definition Ctx : Type := State * World.

Definition world {A} (m : M World A) : M Ctx A :=
  zoom snd (fun w c => (fst c, w)) m.
Definition setState (f : State → State) : M Ctx unit :=
  modify (fun c => (f (fst c), snd c)).

Definition setNotes (l : list Note) : M Ctx unit :=
  setState (fun s => MkState l (isLoading s) (error s) (isModalOpen s) (editingNote s)).
Definition setIsLoading (b : bool) : M Ctx unit :=
  setState (fun s => MkState (notes s) b (error s) (isModalOpen s) (editingNote s)).
Definition setError (e : option string) : M Ctx unit :=
  setState (fun s => MkState (notes s) (isLoading s) e (isModalOpen s) (editingNote s)).
Definition setIsModalOpen (b : bool) : M Ctx unit :=
  setState (fun s => MkState (notes s) (isLoading s) (error s) b (editingNote s)).
Definition setEditingNote (n : option Note) : M Ctx unit :=
  setState (fun s => MkState (notes s) (isLoading s) (error s) (isModalOpen s) n).

(** The comparator handed to [sort]: the difference of the two time
    values, later first.  Its sign is that of the exact difference. *)
Definition byLastUpdate (a b : Note) : Z :=
  types.last_update b - types.last_update a.

Definition openAddModal : M Ctx unit :=
  setEditingNote None;;; setIsModalOpen true.

Definition openEditModal (note : Note) : M Ctx unit :=
  setEditingNote (Some note);;; setIsModalOpen true.

Definition closeModal : M Ctx unit :=
  setIsModalOpen false;;; setEditingNote None.

Section HomePage.
Context `{Platform}.
(** [auth.user] of the enclosing context. *)
Variable user : Value.

Definition fetchNotes : M Ctx unit :=
  if negb (truthy user) then ret tt
  else
    setIsLoading true;;;
    try_finally
      (try_catch
         (let* userNotes := world api.getNotesForUser in
          setNotes (sort byLastUpdate userNotes))
         (fun err => setError (Some "Failed to fetch notes.")))
      (setIsLoading false).

Definition handleSaveNote (title content : Value) : M Ctx unit :=
  if negb (truthy user) then ret tt
  else
    let* editing := gets (fun c => editingNote (fst c)) in
    try_catch
      ((match editing with
        | Some note => world (api.updateNote (types.id note) title content);;; ret tt
        | None => world (api.createNote title content);;; ret tt
        end);;;
       fetchNotes;;;
       closeModal)
      (fun err => world (alert "Failed to save note.")).

Definition handleDeleteNote : M Ctx unit :=
  let* editing := gets (fun c => editingNote (fst c)) in
  match editing with
  | None => ret tt
  | Some note =>
      let* confirmDelete :=
        world (confirm ("Are you sure you want to delete " +:+ dquote +:+
                        ToString (types.title note) +:+ dquote +:+
                        "? This action cannot be undone.")) in
      if negb confirmDelete then ret tt
      else
        try_catch
          (world (api.deleteNote (types.id note));;;
           fetchNotes;;;
           closeModal)
          (fun err =>
             world (alert "Failed to delete note. Please try again.");;;
             world (console_error "Delete error:" err))
  end.
End HomePage.
End HomePage.

(** The page with its modal mounted: what a click on a control of the modal
    runs.  A control that is not rendered, or a [Button] that is disabled
    because its [isLoading] is set, runs nothing.  After the handler the
    modal re-renders, and its effect runs if [isOpen] or [note] changed. *)
Module Screen.
Definition Ctx : Type := NoteModal.State * (HomePage.State * World).

Section Screen.
Context `{Platform}.
Variable user : Value.

Definition props (h : HomePage.State) : NoteModal.Props HomePage.State :=
  NoteModal.MkProps
    (HomePage.isModalOpen h)
    HomePage.closeModal
    (HomePage.handleSaveNote user)
    (match HomePage.editingNote h with
     | Some _ => Some (HomePage.handleDeleteNote user)
     | None => None
     end)
    (HomePage.editingNote h).

Definition deps (h : HomePage.State) : bool * option Note :=
  (HomePage.isModalOpen h, HomePage.editingNote h).

Definition rerender (before : HomePage.State) : M Ctx unit :=
  let* h := gets (fun c => fst (snd c)) in
  if decide (deps before = deps h) then ret tt
  else NoteModal.syncFields (props h).

Definition event (handler : NoteModal.Props HomePage.State → M Ctx unit) : M Ctx unit :=
  let* h := gets (fun c => fst (snd c)) in
  handler (props h);;;
  rerender h.

Definition clickSave : M Ctx unit :=
  let* c := gets (fun c => c) in
  if HomePage.isModalOpen (fst (snd c)) && negb (NoteModal.isSaving (fst c))
  then event NoteModal.handleSave
  else ret tt.

Definition clickDelete : M Ctx unit :=
  let* c := gets (fun c => c) in
  if HomePage.isModalOpen (fst (snd c))
     && bool_decide (is_Some (HomePage.editingNote (fst (snd c))))
     && negb (NoteModal.isDeleting (fst c))
  then event NoteModal.handleDelete
  else ret tt.

(** A handler of the page itself, followed by the re-render of the modal. *)
Definition pageEvent (handler : M HomePage.Ctx unit) : M Ctx unit :=
  let* h := gets (fun c => fst (snd c)) in
  NoteModal.parent handler;;;
  rerender h.

(** A click on the card of [note]; the grid shows the cards of [notes]
    once loading is over. *)
Definition clickCard (note : Note) : M Ctx unit :=
  let* h := gets (fun c => fst (snd c)) in
  if negb (HomePage.isLoading h) && bool_decide (note ∈ HomePage.notes h)
  then pageEvent (HomePage.openEditModal note)
  else ret tt.

(** A click on the floating button. *)
Definition clickAdd : M Ctx unit := pageEvent HomePage.openAddModal.

(** A click on Cancel, on the cross or on the backdrop of the modal. *)
Definition clickClose : M Ctx unit :=
  let* h := gets (fun c => fst (snd c)) in
  if HomePage.isModalOpen h then pageEvent HomePage.closeModal else ret tt.

(** Typing into the two inputs of the open modal. *)
Definition typeTitle (text : string) : M Ctx unit :=
  let* h := gets (fun c => fst (snd c)) in
  if HomePage.isModalOpen h then NoteModal.setTitle (VStr text) else ret tt.

Definition typeContent (text : string) : M Ctx unit :=
  let* h := gets (fun c => fst (snd c)) in
  if HomePage.isModalOpen h then NoteModal.setContent (VStr text) else ret tt.
End Screen.
End Screen.

(** ** components/AuthForm.tsx *)

Module AuthForm.
Record State : Type := MkState {
  isLogin : bool;
  username : string;
  email : string;
  password : string;
  confirmPassword : string;
  isLoading : bool;
  error : Value
}.

Definition initial : State :=
  MkState true EmptyString EmptyString EmptyString EmptyString false VNull.

(** The form runs the operations of the provider it finds in the context. *)
Definition Ctx : Type := State * AuthProvider.Ctx.

Definition auth {A} (m : M AuthProvider.Ctx A) : M Ctx A :=
  zoom snd (fun a c => (fst c, a)) m.
Definition setState (f : State → State) : M Ctx unit :=
  modify (fun c => (f (fst c), snd c)).

Definition setIsLoading (b : bool) : M Ctx unit :=
  setState (fun s => MkState (isLogin s) (username s) (email s) (password s)
                       (confirmPassword s) b (error s)).
Definition setError (e : Value) : M Ctx unit :=
  setState (fun s => MkState (isLogin s) (username s) (email s) (password s)
                       (confirmPassword s) (isLoading s) e).

Section AuthForm.
Context `{Platform}.

Definition handleSubmit : M Ctx unit :=
  let* s := gets fst in
  setIsLoading true;;;
  setError VNull;;;
  if negb (isLogin s) && negb (String.eqb (password s) (confirmPassword s)) then
    setError (VStr "Passwords do not match.");;;
    setIsLoading false
  else
    try_finally
      (try_catch
         (if isLogin s then auth (AuthProvider.login (email s) (password s))
          else auth (AuthProvider.signup (username s) (email s) (password s)))
         (fun err => setError (js_or (VStr (message err)) (VStr "An error occurred."))))
      (setIsLoading false).
End AuthForm.

Definition toggleForm : M Ctx unit :=
  setState (fun s => MkState (negb (isLogin s)) EmptyString EmptyString EmptyString
                       EmptyString (isLoading s) VNull).
End AuthForm.

(** ** App.tsx: what is on screen *)

(** [AuthProvider] shows the spinner while loading and its children
    otherwise; [MainContent] shows the header and the page to an
    authenticated user and the form to anyone else. *)
Module App.
Inductive View : Type :=
| Spinner
| Home (user : Value)
| Form.

Definition render (s : AuthProvider.State) : View :=
  if AuthProvider.isLoading s then Spinner
  else if AuthProvider.isAuthenticated s then Home (AuthProvider.user s)
  else Form.
End App.

(** ** Vocabulary of the properties *)

(** No usable token in the session store: the entry is missing, or it is
    the empty string, which [getAuthHeaders] treats alike. *)
Definition no_token (w : World) : Prop :=
  localStorage w !! "token" = None ∨ localStorage w !! "token" = Some EmptyString.

(** The calls of the API client that attach [getAuthHeaders()]. *)
Inductive AuthenticatedCall : Type :=
| GetMe
| GetNotesForUser
| CreateNote (title content : Value)
| UpdateNote (noteId title content : Value)
| DeleteNote (noteId : Value).

Definition perform `{Platform} (c : AuthenticatedCall) : M World unit :=
  match c with
  | GetMe => api.getMe;;; ret tt
  | GetNotesForUser => api.getNotesForUser;;; ret tt
  | CreateNote t c => api.createNote t c;;; ret tt
  | UpdateNote i t c => api.updateNote i t c;;; ret tt
  | DeleteNote i => api.deleteNote i
  end.

(** The invariant of the persisted session: no user record without a
    token. *)
Definition session_inv (st : gmap string string) : Prop :=
  st !! "token" = None → st !! "user" = None.

(** The invariant at every content the storage has had. *)
Definition always_inv (w : World) : Prop :=
  Forall session_inv (storageLog w) ∧ session_inv (localStorage w).

(** The operations of the Auth Controller that touch the session store. *)
Inductive SessionOp : Type :=
| OpInitAuth
| OpLogin (email password : string)
| OpSignup (username email password : string)
| OpLogout.

Definition run_op `{Platform} (op : SessionOp) : M AuthProvider.Ctx unit :=
  match op with
  | OpInitAuth => AuthProvider.initAuth
  | OpLogin e p => AuthProvider.login e p
  | OpSignup u e p => AuthProvider.signup u e p
  | OpLogout => AuthProvider.logout
  end.

(** A session of the application: operations one after the other, a
    rejected one leaving the application running. *)
Fixpoint run_ops `{Platform} (ops : list SessionOp) (c : AuthProvider.Ctx) : AuthProvider.Ctx :=
  match ops with
  | [] => c
  | op :: rest => run_ops rest (snd (run_op op c))
  end.

(** The storage and its history are the same in two worlds. *)
Definition storage_same (w w' : World) : Prop :=
  localStorage w' = localStorage w ∧ storageLog w' = storageLog w.

(** What a run of [api.login] from [w] can have done to the session store
    when it ends in [w'] with completion [r]: nothing and a failure; the
    token written and a failure; the token and then the user written and a
    result. *)
Definition login_effect `{Platform} (w : World) (r : Completion (Value * Value))
    (w' : World) : Prop :=
  (∃ e, r = Throw e) ∧ storage_same w w'
  ∨ (∃ e tok, r = Throw e ∧
       localStorage w' = <["token" := tok]> (localStorage w) ∧
       storageLog w' = storageLog w ++ [localStorage w])
  ∨ (∃ u tok, r = Normal (u, tok) ∧
       localStorage w' =
         <["user" := ToString (stringify u)]>
           (<["token" := ToString tok]> (localStorage w)) ∧
       storageLog w' =
         storageLog w ++ [localStorage w;
                          <["token" := ToString tok]> (localStorage w)]).

(** The comparator [(a, b) => key(b) - key(a)]. *)
Definition laterFirst {A} (key : A → Z) (a b : A) : Z := key b - key a.

(** [a] may stand before [b]. *)
Definition noEarlier {A} (key : A → Z) (a b : A) : Prop := key b ≤ key a.

(** Later first: each element is at least as late as every one after it. *)
Definition descending {A} (key : A → Z) (l : list A) : Prop :=
  ∀ (i j : nat) (a b : A),
    (i < j)%nat → l !! i = Some a → l !! j = Some b → key b ≤ key a.

(** Elements with the same key stand in the order they have in [l0]. *)
Definition stable_wrt {A} (key : A → Z) (l0 l : list A) : Prop :=
  ∀ k : Z, filter (fun n => key n = k) l = filter (fun n => key n = k) l0.

(** The create or update request that a save of the page in state [h]
    sends. *)
Definition saveCall `{Platform} (h : HomePage.State) (title content : Value) : M World Value :=
  match HomePage.editingNote h with
  | Some note => api.updateNote (types.id note) title content
  | None => api.createNote title content
  end.

(** The page after [closeModal]. *)
Definition closed (h : HomePage.State) : HomePage.State :=
  HomePage.MkState (HomePage.notes h) (HomePage.isLoading h) (HomePage.error h) false None.

(** From [w] to [w'] nobody was asked anything and requests were only
    added. *)
Definition unprompted (w w' : World) : Prop :=
  confirms w' = confirms w ∧ ∃ new, requests w' = requests w ++ new.

(** The first question, asked by the modal, and the second, asked by the
    page, about the note being edited. *)
Definition modalQuestion (note : Note) : string :=
  "Are you sure you want to delete " +:+ dquote +:+
  ToString (types.title note) +:+ dquote +:+ "?".

Definition pageQuestion (note : Note) : string :=
  "Are you sure you want to delete " +:+ dquote +:+
  ToString (types.title note) +:+ dquote +:+ "? This action cannot be undone.".

(** A header set carries the header [k]. *)
Definition has_header (k : string) (hs : list (string * string)) : Prop :=
  ∃ v, (k, v) ∈ hs.

(** The header set [getAuthHeaders] builds from the store of [w]. *)
Definition bearer (w : World) : list (string * string) :=
  match localStorage w !! "token" with
  | Some t => if String.eqb t EmptyString then []
              else [("Authorization", "Bearer " +:+ t)]
  | None => []
  end.

(** The requests of the client, as it writes them. *)
Definition loginRequest `{Platform} (email password : string) : Request :=
  MkRequest "POST" (API_URL +:+ "/login")
    [("Content-Type", "application/x-www-form-urlencoded")]
    (Some (URLSearchParams_toString [("username", email); ("password", password)])).

Definition signupRequest `{Platform} (username email password : string) : Request :=
  MkRequest "POST" (API_URL +:+ "/signup")
    [("Content-Type", "application/json")]
    (Some (JSON_stringify
             (VObj [("username", VStr username); ("email", VStr email);
                    ("password", VStr password)]))).

Definition meRequest (auth : list (string * string)) : Request :=
  MkRequest "GET" (API_URL +:+ "/users/me") auth None.

Definition notesRequest (auth : list (string * string)) : Request :=
  MkRequest "GET" (API_URL +:+ "/notes") auth None.

Definition deleteRequest (noteId : Value) (auth : list (string * string)) : Request :=
  MkRequest "DELETE" (API_URL +:+ "/notes/" +:+ ToString noteId) auth None.

Definition saveRequest `{Platform} (editing : option Note) (title content : Value)
    (auth : list (string * string)) : Request :=
  let payload := Some (JSON_stringify (VObj [("title", title); ("content", content)])) in
  let hs := ("Content-Type", "application/json") :: auth in
  match editing with
  | Some note =>
      MkRequest "PUT" (API_URL +:+ "/notes/" +:+ ToString (types.id note)) hs payload
  | None => MkRequest "POST" (API_URL +:+ "/notes") hs payload
  end.

(** A response that [handleResponse] turns into a value: a 204, or another
    2xx whose body parses. *)
Definition accepted (r : Response) : Prop :=
  ok r = true ∧ (status r = 204 ∨ ∃ v, payload r = Json v).

(** The largest magnitude of a time value, in milliseconds. *)
Definition maxTime : Z := 8640000000000000.

(** [n] is the note the client makes of the element [raw] of the backend's
    array: the four fields as sent, the two dates as the time values the
    platform reads from what was sent. *)
Definition normalised `{Platform} (raw : Value) (n : Note) : Prop :=
  types.id n = own raw "id" ∧ types.userId n = own raw "userId" ∧
  types.title n = own raw "title" ∧ types.content n = own raw "content" ∧
  Date_time (own raw "last_update") = Some (types.last_update n) ∧
  Date_time (own raw "created_on") = Some (types.created_on n) ∧
  Z.abs (types.last_update n) ≤ maxTime ∧ Z.abs (types.created_on n) ≤ maxTime.

(** The operation of the provider that a submit of the form [f] runs. *)
Definition submitOp (f : AuthForm.State) : SessionOp :=
  if AuthForm.isLogin f
  then OpLogin (AuthForm.email f) (AuthForm.password f)
  else OpSignup (AuthForm.username f) (AuthForm.email f) (AuthForm.password f).

(** The form [f] once a submit is over, showing [e]. *)
Definition submitted (f : AuthForm.State) (e : Value) : AuthForm.State :=
  AuthForm.MkState (AuthForm.isLogin f) (AuthForm.username f) (AuthForm.email f)
    (AuthForm.password f) (AuthForm.confirmPassword f) false e.

(** What the user of the notes page can do, and the refresh the page runs
    on its own when it mounts. *)
Inductive PageEvent : Type :=
| Refresh
| ClickAdd
| ClickCard (note : Note)
| ClickClose
| TypeTitle (text : string)
| TypeContent (text : string)
| ClickSave
| ClickDelete.

Definition run_event `{Platform} (user : Value) (ev : PageEvent) : M Screen.Ctx unit :=
  match ev with
  | Refresh => Screen.pageEvent user (HomePage.fetchNotes user)
  | ClickAdd => Screen.clickAdd user
  | ClickCard note => Screen.clickCard user note
  | ClickClose => Screen.clickClose user
  | TypeTitle text => Screen.typeTitle text
  | TypeContent text => Screen.typeContent text
  | ClickSave => Screen.clickSave user
  | ClickDelete => Screen.clickDelete user
  end.

Fixpoint run_events `{Platform} (user : Value) (evs : list PageEvent)
    (c : Screen.Ctx) : Screen.Ctx :=
  match evs with
  | [] => c
  | ev :: rest => run_events user rest (snd (run_event user ev c))
  end.

(** Opening, closing and typing. *)
Definition local (ev : PageEvent) : bool :=
  match ev with
  | ClickAdd | ClickCard _ | ClickClose | TypeTitle _ | TypeContent _ => true
  | Refresh | ClickSave | ClickDelete => false
  end.

(** A computation, run from any state, takes the world [wo] sees to one
    related to it by [R]. *)
Definition frames {S A} (wo : S → World) (R : World → World → Prop) (m : M S A) : Prop :=
  ∀ s, R (wo s) (wo (snd (m s))).

(** The modal over the page [h], with the editor open on [h]'s note. *)
Definition loaded (h : HomePage.State) : NoteModal.State :=
  NoteModal.MkState
    (NoteModal.field_or_empty (HomePage.editingNote h) types.title)
    (NoteModal.field_or_empty (HomePage.editingNote h) types.content)
    false false.

(** The page with the editor opened on [editing]. *)
Definition opened (h : HomePage.State) (editing : option Note) : HomePage.State :=
  HomePage.MkState (HomePage.notes h) (HomePage.isLoading h) (HomePage.error h)
    true editing.

(** ** Fixtures for the examples *)

(** A platform whose serialisers are as simple as the examples need and
    whose [Date.parse] knows two instants. *)
Definition examplePlatform : Platform :=
  Build_Platform
    ToString
    (fun l => join "&" (map (fun p => fst p +:+ "=" +:+ snd p) l))
    (fun s => if String.eqb s "2024-01-01T00:00:00Z" then Some 1704067200000
              else if String.eqb s "2024-01-02T00:00:00Z" then Some 1704153600000
              else None).

(** A backend that is not reachable. *)
Definition offline (_ : list Request) (_ : Request) : FetchOutcome :=
  NetworkError (MkError "TypeError" "Failed to fetch").

Definition freshWorld (srv : list Request → Request → FetchOutcome)
    (answer : list (string * bool) → string → bool) : World :=
  MkWorld ∅ [] srv [] answer [] [] [].

(** A backend that hands out a token at [/login] and rejects everything
    else, as when the token it issued is not accepted by [/users/me]. *)
Definition tokenThenReject (_ : list Request) (r : Request) : FetchOutcome :=
  if String.eqb (url r) (API_URL +:+ "/login") then
    Responded (MkResponse 200 (Json (VObj [("access_token", VStr "tok")])))
  else if String.eqb (url r) (API_URL +:+ "/signup") then
    Responded (MkResponse 200 (Json (VObj [("id", VNum 1)])))
  else
    Responded (MkResponse 401
                 (Json (VObj [("detail", VStr "Could not validate credentials")]))).

(** The provider once startup validation found no session. *)
Definition loggedOut : AuthProvider.State := AuthProvider.MkState VNull VNull false.

Definition emptyBody : Body :=
  Unparseable (MkError "SyntaxError" "Unexpected end of JSON input").

(** A browser that kept the token of an earlier session, with a backend
    that no longer accepts it. *)
Definition staleWorld : World :=
  MkWorld {["token" := "stale"]} [] tokenThenReject [] (fun _ _ => false) [] [] [].

Definition alice : Value :=
  VObj [("id", VNum 1); ("username", VStr "alice"); ("email", VStr "alice@x.com")].

Definition rawNote (i : Z) (t : string) (updated : string) : Value :=
  VObj [("id", VNum i); ("userId", VNum 1); ("title", VStr t);
        ("content", VStr "milk, eggs"); ("last_update", VStr updated);
        ("created_on", VStr "2024-01-01T00:00:00Z")].

(** A backend that serves three notes, the first and the third updated at
    the same instant, and accepts every change. *)
Definition notesBackend (_ : list Request) (r : Request) : FetchOutcome :=
  if String.eqb (method r) "GET" then
    Responded (MkResponse 200
      (Json (VArr [rawNote 1 "Groceries" "2024-01-01T00:00:00Z";
                   rawNote 2 "Ideas" "2024-01-02T00:00:00Z";
                   rawNote 3 "Chores" "2024-01-01T00:00:00Z"])))
  else if String.eqb (method r) "DELETE" then Responded (MkResponse 204 emptyBody)
  else Responded (MkResponse 200 (Json (rawNote 4 "New" "2024-01-02T00:00:00Z"))).

Definition note (i : Z) (t : string) (updated : Z) : Note :=
  types.MkNote (VNum i) (VNum 1) (VStr t) (VStr "milk, eggs") updated 1704067200000.

Definition signedIn (srv : list Request → Request → FetchOutcome)
    (answer : list (string * bool) → string → bool) : World :=
  MkWorld {["token" := "tok"]} [] srv [] answer [] [] [].

(** The page with the editor open on a note. *)
Definition editing (n : Note) : HomePage.State :=
  HomePage.MkState [n] false None true (Some n).

Definition typed : NoteModal.State :=
  NoteModal.MkState (VStr "Groceries") (VStr "milk, eggs, bread") false false.

(** The answer of [/login] to a wrong password. *)
Definition unauthorized : Response :=
  MkResponse 401 (Json (VObj [("detail", VStr "Incorrect email or password")])).

(** A backend with one account and three notes: it hands out a token,
    knows the user behind it and serves and changes the notes. *)
Definition sessionBackend (log : list Request) (r : Request) : FetchOutcome :=
  if String.eqb (url r) (API_URL +:+ "/login") then
    Responded (MkResponse 200 (Json (VObj [("access_token", VStr "tok")])))
  else if String.eqb (url r) (API_URL +:+ "/signup") then
    Responded (MkResponse 200 (Json (VObj [("id", VNum 1)])))
  else if String.eqb (url r) (API_URL +:+ "/users/me") then
    Responded (MkResponse 200 (Json alice))
  else notesBackend log r.

(** A backend that refuses everything with a structured error. *)
Definition refusing (_ : list Request) (_ : Request) : FetchOutcome :=
  Responded unauthorized.

(** A backend whose second note carries a date the platform cannot read. *)
Definition spoiled (_ : list Request) (_ : Request) : FetchOutcome :=
  Responded (MkResponse 200
    (Json (VArr [rawNote 1 "Groceries" "2024-01-01T00:00:00Z";
                 rawNote 2 "Ideas" "yesterday"]))).

(** A backend that serves the notes and fails every delete. *)
Definition brokenDelete (log : list Request) (r : Request) : FetchOutcome :=
  if String.eqb (method r) "DELETE" then Responded (MkResponse 500 emptyBody)
  else notesBackend log r.

(** A browser with a setting of another part of the site in the store. *)
Definition themedWorld : World :=
  MkWorld {["theme" := "dark"]} [] sessionBackend [] (fun _ _ => false) [] [] [].

Definition always (answer : bool) (_ : list (string * bool)) (_ : string) : bool := answer.

(** The page once the three notes are listed, the editor closed. *)
Definition listed : HomePage.State :=
  HomePage.MkState
    [note 2 "Ideas" 1704153600000; note 1 "Groceries" 1704067200000;
     note 3 "Chores" 1704067200000]
    false None false None.

(** The form filled for a login, and for a registration with a slip in the
    repeated password. *)
Definition loginForm : AuthForm.State :=
  AuthForm.MkState true EmptyString "alice@x.com" "pw1234" EmptyString false VNull.

Definition slipForm : AuthForm.State :=
  AuthForm.MkState false "bob" "bob@x.com" "pw1234" "pw1243" false VNull.

(** ** The API client *)

Section ApiClient.
Context `{Platform}.

Lemma handleResponse_world (response : Response) (w : World) :
  snd (handleResponse response w) = w.
Proof.
  unfold handleResponse.
  destruct (ok response); simpl.
  - destruct (status response =? 204); [reflexivity|].
    unfold liftC. reflexivity.
  - unfold bind, try_catch, liftC, ret, throw. simpl.
    destruct (json response) as [v|e]; simpl;
      [destruct (getProp v "detail")|]; reflexivity.
Qed.

(** A response outside 200..299 never yields a value. *)
Lemma handleResponse_not_ok (response : Response) (w : World) :
  ok response = false → ∃ e, handleResponse response w = (Throw e, w).
Proof.
  intros Hok. unfold handleResponse. rewrite Hok. simpl.
  unfold bind, try_catch, liftC, ret, throw.
  destruct (json response) as [v|e]; simpl;
    [destruct (getProp v "detail")|]; eauto.
Qed.

Lemma getAuthHeaders_no_token (w : World) :
  no_token w → getAuthHeaders w = (Normal [], w).
Proof.
  intros [Hn|Hn]; unfold getAuthHeaders, bind, getItem, gets;
    rewrite Hn; reflexivity.
Qed.

Lemma getAuthHeaders_world (w : World) : snd (getAuthHeaders w) = w.
Proof.
  unfold getAuthHeaders, bind, getItem, gets.
  destruct (localStorage w !! "token") as [t|]; simpl; [|reflexivity].
  destruct (String.eqb t EmptyString); reflexivity.
Qed.

(** C4, as the code has it: a response outside 200..299 makes the call
    fail and leaves the world alone.  The message is the [detail] of the
    parsed body when that is truthy (the string itself when it is a
    string); it is "An unknown error occurred." when the body is absent or
    does not parse; and it is "HTTP error! status: <code>" only when the
    body parses and carries no truthy [detail].  A body that is [null]
    fails on the property read. *)
Theorem handleResponse_error_message (response : Response) (w : World) :
  ok response = false →
  ∃ e, handleResponse response w = (Throw e, w) ∧
    (∀ fields s, payload response = Json (VObj fields) →
                 assoc "detail" fields = Some (VStr s) → s ≠ EmptyString →
                 e = MkError "Error" s) ∧
    (∀ reason, payload response = Unparseable reason →
               e = MkError "Error" "An unknown error occurred.") ∧
    (∀ data detail, payload response = Json data →
                    getProp data "detail" = Normal detail →
                    e = MkError "Error"
                          (if truthy detail then ToString detail
                           else "HTTP error! status: " +:+ pretty (status response))) ∧
    (∀ data te, payload response = Json data →
                getProp data "detail" = Throw te → e = te).
Proof.
  intros Hok. unfold handleResponse. rewrite Hok. simpl.
  unfold bind, try_catch, liftC, ret, throw, json.
  destruct (payload response) as [reason|data] eqn:Hp; simpl.
  - eexists; split; [reflexivity|].
    repeat split; intros; congruence.
  - destruct (getProp data "detail") as [detail|te] eqn:Hd.
    + eexists; split; [reflexivity|].
      repeat split.
      * intros fields s [= ->] Hs Hne. simpl in Hd. rewrite Hs in Hd.
        injection Hd as <-. unfold js_or. simpl.
        destruct (String.eqb s EmptyString) eqn:E; [|reflexivity].
        apply String.eqb_eq in E. contradiction.
      * intros; congruence.
      * intros data' detail' [= <-] Hd'. rewrite Hd in Hd'.
        injection Hd' as <-. unfold js_or.
        destruct (truthy detail); reflexivity.
      * intros; congruence.
    + eexists; split; [reflexivity|].
      repeat split.
      * intros fields s [= ->]. simpl in Hd. discriminate.
      * intros; congruence.
      * intros; congruence.
      * intros data' te' [= <-] Hd'. rewrite Hd in Hd'.
        injection Hd' as <-. reflexivity.
Qed.

Lemma handleResponse_pure (response : Response) (w w' : World) :
  handleResponse response w = (fst (handleResponse response w'), w).
Proof.
  unfold handleResponse.
  destruct (ok response); simpl.
  - destruct (status response =? 204); reflexivity.
  - unfold bind, try_catch, liftC, ret, throw. simpl.
    destruct (json response) as [v|e]; simpl;
      [destruct (getProp v "detail")|]; reflexivity.
Qed.

Lemma no_authorization_header (hs : list (string * string)) :
  hs = [] ∨ hs = [("Content-Type", "application/json")] →
  ¬ has_header "Authorization" hs.
Proof.
  intros [->| ->] [v Hv].
  - inversion Hv.
  - apply list_elem_of_singleton in Hv. discriminate.
Qed.

(** C10: without a token each authenticated call still sends its request.
    The bearer header set is empty, so the request has no Authorization
    header: no header at all on GET and DELETE, the content type alone on
    POST and PUT.  The call then fails with what the transport or the
    backend answers. *)
Theorem tokenless_call_is_sent (c : AuthenticatedCall) (w : World) :
  no_token w →
  getAuthHeaders w = (Normal [], w) ∧
  ∃ r, requests (snd (perform c w)) = requests w ++ [r] ∧
       ¬ has_header "Authorization" (headers r) ∧
       headers r = match c with
                   | CreateNote _ _ | UpdateNote _ _ _ =>
                       [("Content-Type", "application/json")]
                   | _ => []
                   end ∧
       match server w (requests w) r with
       | NetworkError e => fst (perform c w) = Throw e
       | Responded response =>
           ok response = false →
           ∃ e, fst (handleResponse response w) = Throw e ∧
                fst (perform c w) = Throw e
       end.
Proof.
  intros Hn. pose proof (getAuthHeaders_no_token w Hn) as Hh.
  split; [exact Hh|].
  destruct c; simpl;
    unfold api.getMe, api.getNotesForUser, api.createNote, api.updateNote,
      api.deleteNote, bind; rewrite Hh; unfold fetch;
    match goal with
    | |- context [server w (requests w) ?q] => exists q; set (r := q)
    end;
    (destruct (server w (requests w) r) as [e|response] eqn:Hs; simpl;
     [ repeat split; auto using no_authorization_header
     | rewrite (handleResponse_pure response (add_request r w) w);
       split; [|split; [auto using no_authorization_header|split; [reflexivity|]]] ]).
  all: try (intros Hok; destruct (handleResponse_not_ok response w Hok) as [e He];
            rewrite He; simpl; eauto).
  all: destruct (handleResponse response w).1 as [v|e]; try reflexivity.
  destruct v; simpl; try reflexivity.
  unfold liftC. destruct (mapC normalizeNote items); reflexivity.
Qed.
End ApiClient.

(** ** The session store *)

Section Session.
Context `{Platform}.

Lemma storage_same_refl w : storage_same w w.
Proof. split; reflexivity. Qed.

Lemma storage_same_trans w1 w2 w3 :
  storage_same w1 w2 → storage_same w2 w3 → storage_same w1 w3.
Proof. intros [? ?] [? ?]; split; congruence. Qed.

Lemma fetch_storage (r : Request) (w : World) :
  storage_same w (snd (fetch r w)).
Proof. unfold fetch. destruct (server w (requests w) r); split; reflexivity. Qed.

Lemma getMe_storage (w : World) : storage_same w (snd (api.getMe w)).
Proof.
  unfold api.getMe, bind.
  pose proof (getAuthHeaders_world w) as Hw.
  destruct (getAuthHeaders w) as [[hs|e] w1]; simpl in Hw; subst w1;
    [|apply storage_same_refl].
  pose proof (fetch_storage (MkRequest "GET" (API_URL +:+ "/users/me") hs None) w) as Hf.
  destruct (fetch _ w) as [[resp|e] w2]; simpl in Hf; [|exact Hf].
  rewrite (handleResponse_pure resp w2 w2). exact Hf.
Qed.

(** What [api.login] does to the session store: nothing when the
    credential exchange fails, the token alone when the exchange succeeds
    and [getMe] fails, the token and then the user when both succeed. *)
Lemma api_login_storage (email password : string) (w : World) :
  ∃ r w', api.login email password w = (r, w') ∧ login_effect w r w'.
Proof.
  unfold api.login. unfold bind at 1.
  match goal with |- context [fetch ?q w] => set (r1 := q) end.
  pose proof (fetch_storage r1 w) as Hf.
  destruct (fetch r1 w) as [[resp|e] w1]; simpl in Hf;
    [|eexists _, _; split; [reflexivity|left; eauto]].
  unfold bind at 1. rewrite (handleResponse_pure resp w1 w1).
  destruct (handleResponse resp w1).1 as [data|e];
    [|eexists _, _; split; [reflexivity|left; eauto]].
  unfold bind at 1, liftC.
  destruct (getProp data "access_token") as [tok|e];
    [|eexists _, _; split; [reflexivity|left; eauto]].
  unfold bind at 1, setItem, modify.
  set (w2 := set_localStorage _ w1).
  unfold bind at 1.
  pose proof (getMe_storage w2) as Hg.
  destruct (api.getMe w2) as [[u|e] w3]; simpl in Hg.
  - eexists _, _; split; [reflexivity|right; right].
    exists u, tok. split; [reflexivity|].
    destruct Hf as [Hf1 Hf2], Hg as [Hg1 Hg2]. simpl.
    rewrite Hg1, Hg2. simpl. rewrite Hf1, Hf2.
    split; [reflexivity|]. rewrite <- app_assoc. reflexivity.
  - eexists _, _; split; [reflexivity|right; left].
    exists e, (ToString tok). split; [reflexivity|].
    destruct Hf as [Hf1 Hf2], Hg as [Hg1 Hg2].
    rewrite Hg1, Hg2. simpl. rewrite Hf1, Hf2. split; reflexivity.
Qed.

Lemma login_effect_from (w0 w : World) r w' :
  storage_same w0 w → login_effect w r w' → login_effect w0 r w'.
Proof.
  intros [H1 H2]. unfold login_effect, storage_same.
  rewrite H1, H2. tauto.
Qed.

Lemma api_signup_storage (username email password : string) (w : World) :
  ∃ r w', api.signup username email password w = (r, w') ∧ login_effect w r w'.
Proof.
  unfold api.signup. unfold bind at 1.
  match goal with |- context [fetch ?q w] => set (r1 := q) end.
  pose proof (fetch_storage r1 w) as Hf.
  destruct (fetch r1 w) as [[resp|e] w1]; simpl in Hf;
    [|eexists _, _; split; [reflexivity|left; eauto]].
  unfold bind at 1. rewrite (handleResponse_pure resp w1 w1).
  destruct (handleResponse resp w1).1 as [data|e];
    [|eexists _, _; split; [reflexivity|left; eauto]].
  destruct (api_login_storage email password w1) as (r & w' & Hl & He).
  exists r, w'. split; [exact Hl|].
  eapply login_effect_from; eassumption.
Qed.

Lemma session_inv_token (st : gmap string string) (t : string) :
  session_inv (<["token" := t]> st).
Proof. intros Hn. rewrite lookup_insert_eq in Hn. discriminate. Qed.

Lemma session_inv_user (st : gmap string string) (u : string) :
  is_Some (st !! "token") → session_inv (<["user" := u]> st).
Proof.
  intros [t Ht] Hn. rewrite lookup_insert_ne in Hn by discriminate. congruence.
Qed.

Lemma session_inv_remove_user (st : gmap string string) :
  session_inv (delete "user" st).
Proof. intros _. apply lookup_delete_eq. Qed.

Lemma session_inv_remove_both (st : gmap string string) :
  session_inv (delete "token" (delete "user" st)).
Proof.
  intros _. rewrite lookup_delete_ne by discriminate. apply lookup_delete_eq.
Qed.

Lemma always_inv_same (w w' : World) :
  storage_same w w' → always_inv w → always_inv w'.
Proof. intros [H1 H2]. unfold always_inv. rewrite H1, H2. tauto. Qed.

Lemma login_effect_inv (w : World) r (w' : World) :
  login_effect w r w' → always_inv w → always_inv w'.
Proof.
  intros [[_ Hs]|[(e & tok & _ & Hl & Hg)|(u & tok & _ & Hl & Hg)]] [Hlog Hcur].
  - eapply always_inv_same; [eassumption|split; assumption].
  - split; rewrite ?Hl, ?Hg.
    + apply Forall_app; split; [assumption|]. constructor; [assumption|constructor].
    + apply session_inv_token.
  - split; rewrite ?Hl, ?Hg.
    + apply Forall_app; split; [assumption|].
      repeat constructor; [assumption|apply session_inv_token].
    + apply session_inv_user. rewrite lookup_insert_eq. eauto.
Qed.

(** The provider commits the result of the API call to memory only when
    the call returns. *)
Lemma login_run (email password : string) (s : AuthProvider.State) (w : World) :
  AuthProvider.login email password (s, w) =
    match api.login email password w with
    | (Normal (u, t), w') =>
        (Normal tt, (AuthProvider.MkState u t (AuthProvider.isLoading s), w'))
    | (Throw e, w') => (Throw e, (s, w'))
    end.
Proof.
  unfold AuthProvider.login, bind, AuthProvider.world, zoom. simpl.
  destruct (api.login email password w) as [[[u t]|e] w']; reflexivity.
Qed.

Lemma signup_run (username email password : string) (s : AuthProvider.State) (w : World) :
  AuthProvider.signup username email password (s, w) =
    match api.signup username email password w with
    | (Normal (u, t), w') =>
        (Normal tt, (AuthProvider.MkState u t (AuthProvider.isLoading s), w'))
    | (Throw e, w') => (Throw e, (s, w'))
    end.
Proof.
  unfold AuthProvider.signup, bind, AuthProvider.world, zoom. simpl.
  destruct (api.signup username email password w) as [[[u t]|e] w']; reflexivity.
Qed.

Lemma logout_run (s : AuthProvider.State) (w : World) :
  AuthProvider.logout (s, w) =
    (Normal tt,
     (AuthProvider.MkState VNull VNull (AuthProvider.isLoading s),
      MkWorld (delete "token" (delete "user" (localStorage w)))
              (storageLog w ++ [localStorage w; delete "user" (localStorage w)])
              (server w) (requests w) (operator w) (confirms w) (alerts w)
              (console w))).
Proof.
  unfold AuthProvider.logout, bind, AuthProvider.world, zoom, removeItem, modify,
    set_localStorage. simpl. rewrite <- app_assoc. reflexivity.
Qed.

(** [initAuth] by cases on the stored token and on the answer of
    [getMe]. *)
Lemma initAuth_run (s : AuthProvider.State) (w : World) :
  AuthProvider.initAuth (s, w) =
    match localStorage w !! "token" with
    | Some t =>
        if String.eqb t EmptyString
        then (Normal tt, (AuthProvider.MkState (AuthProvider.user s) (AuthProvider.token s) false, w))
        else
          match api.getMe w with
          | (Normal u, w1) =>
              (Normal tt,
               (AuthProvider.MkState u (VStr t) false,
                set_localStorage (<["user" := ToString (stringify u)]> (localStorage w1)) w1))
          | (Throw e, w1) =>
              (Normal tt,
               (AuthProvider.MkState (AuthProvider.user s) (AuthProvider.token s) false,
                let w2 := add_console ("Session validation failed:" +:+ " " +:+
                                       name e +:+ ": " +:+ message e) w1 in
                set_localStorage (delete "token" (delete "user" (localStorage w2)))
                  (set_localStorage (delete "user" (localStorage w2)) w2)))
          end
    | None => (Normal tt, (AuthProvider.MkState (AuthProvider.user s) (AuthProvider.token s) false, w))
    end.
Proof.
  unfold AuthProvider.initAuth. unfold bind at 1.
  unfold AuthProvider.world at 1, zoom, getItem, gets. simpl.
  destruct (localStorage w !! "token") as [t|]; simpl; [|reflexivity].
  destruct (String.eqb t EmptyString); simpl; [reflexivity|].
  unfold bind at 1, try_catch. unfold bind at 1.
  unfold AuthProvider.world at 1, zoom. simpl.
  destruct (api.getMe w) as [[u|e] w1]; reflexivity.
Qed.

(** Startup validation always settles: it returns, and the loading flag
    is down. *)
Lemma initAuth_settles (s : AuthProvider.State) (w : World) :
  ∃ s' w', AuthProvider.initAuth (s, w) = (Normal tt, (s', w')) ∧
           AuthProvider.isLoading s' = false.
Proof.
  rewrite initAuth_run.
  destruct (localStorage w !! "token") as [t|]; [|eauto].
  destruct (String.eqb t EmptyString); [eauto|].
  destruct (api.getMe w) as [[u|e] w1]; eauto.
Qed.

(** C2: with a token in the store and a failing [getMe], startup
    validation returns, removes both entries, leaves the user and the
    token in memory at [null] and lowers the loading flag. *)
Theorem initAuth_failed_validation (w w1 : World) (t : string) (e : JSError) :
  localStorage w !! "token" = Some t → t ≠ EmptyString →
  api.getMe w = (Throw e, w1) →
  ∃ w', AuthProvider.initAuth (AuthProvider.initial, w)
          = (Normal tt, (AuthProvider.MkState VNull VNull false, w')) ∧
        localStorage w' !! "token" = None ∧
        localStorage w' !! "user" = None ∧
        AuthProvider.isAuthenticated (AuthProvider.MkState VNull VNull false) = false.
Proof.
  intros Ht Hne Hg. rewrite initAuth_run, Ht, Hg.
  destruct (String.eqb t EmptyString) eqn:E.
  { apply String.eqb_eq in E. contradiction. }
  eexists. split; [reflexivity|]. simpl.
  split; [apply lookup_delete_eq|].
  split; [|reflexivity].
  rewrite lookup_delete_ne by discriminate. apply lookup_delete_eq.
Qed.

Lemma run_op_inv (op : SessionOp) (c : AuthProvider.Ctx) :
  always_inv (snd c) → always_inv (snd (snd (run_op op c))).
Proof.
  destruct c as [s w]. simpl. intros Hinv.
  destruct op as [|email password|username email password|]; cbn [run_op].
  - rewrite initAuth_run.
    destruct (localStorage w !! "token") as [t|] eqn:Ht; [|exact Hinv].
    destruct (String.eqb t EmptyString); [exact Hinv|].
    pose proof (getMe_storage w) as Hg.
    destruct (api.getMe w) as [[u|e] w1]; simpl in Hg |- *;
      apply (always_inv_same _ _ Hg) in Hinv; destruct Hinv as [Hlog Hcur];
      destruct Hg as [Hg1 Hg2].
    + split; simpl.
      * apply Forall_app; split; [assumption|]. repeat constructor; assumption.
      * apply session_inv_user. rewrite Hg1, Ht. eauto.
    + split; simpl.
      * rewrite <- app_assoc. apply Forall_app; split; [assumption|].
        repeat constructor; [assumption|apply session_inv_remove_user].
      * apply session_inv_remove_both.
  - rewrite login_run.
    destruct (api_login_storage email password w) as (r & w' & Hl & He).
    rewrite Hl. apply login_effect_inv in He; [|assumption].
    destruct r as [[u t]|e]; exact He.
  - rewrite signup_run.
    destruct (api_signup_storage username email password w) as (r & w' & Hl & He).
    rewrite Hl. apply login_effect_inv in He; [|assumption].
    destruct r as [[u t]|e]; exact He.
  - rewrite logout_run. simpl. destruct Hinv as [Hlog Hcur]. split; simpl.
    + apply Forall_app; split; [assumption|].
      repeat constructor; [assumption|apply session_inv_remove_user].
    + apply session_inv_remove_both.
Qed.

(** C8: along any sequence of startup validations, logins, signups and
    logouts, every content the storage takes, the ones between two writes
    included, has a token whenever it has a user record, provided the
    storage had so from the start. *)
Theorem session_invariant (ops : list SessionOp) (c : AuthProvider.Ctx) :
  always_inv (snd c) → always_inv (snd (run_ops ops c)).
Proof.
  revert c. induction ops as [|op ops IH]; intros c Hinv; simpl.
  - exact Hinv.
  - apply IH. apply run_op_inv. exact Hinv.
Qed.

(** A failed login or signup leaves the memory of the provider and the
    stored user record as they were, and the stored token too when the
    failure comes before the token is received. *)
Lemma login_effect_failure (w : World) (e : JSError) (w' : World) :
  login_effect w (Throw e) w' →
  localStorage w' !! "user" = localStorage w !! "user" ∧
  (localStorage w' = localStorage w ∨
   ∃ tok, localStorage w' = <["token" := tok]> (localStorage w)).
Proof.
  intros [[_ [Hs _]]|[(e' & tok & _ & Hl & _)|(u & tok & Hr & _)]].
  - rewrite Hs. auto.
  - rewrite Hl. split; [|eauto]. apply lookup_insert_ne. discriminate.
  - discriminate.
Qed.

Lemma login_failure_frame (email password : string) (s : AuthProvider.State)
    (w : World) (e : JSError) (s' : AuthProvider.State) (w' : World) :
  AuthProvider.login email password (s, w) = (Throw e, (s', w')) →
  s' = s ∧ localStorage w' !! "user" = localStorage w !! "user".
Proof.
  rewrite login_run.
  destruct (api_login_storage email password w) as (r & w1 & Hl & He).
  rewrite Hl. destruct r as [[u t]|e1]; [discriminate|].
  intros [= <- <- <-]. split; [reflexivity|].
  apply (login_effect_failure _ _ _ He).
Qed.

Lemma signup_failure_frame (username email password : string) (s : AuthProvider.State)
    (w : World) (e : JSError) (s' : AuthProvider.State) (w' : World) :
  AuthProvider.signup username email password (s, w) = (Throw e, (s', w')) →
  s' = s ∧ localStorage w' !! "user" = localStorage w !! "user".
Proof.
  rewrite signup_run.
  destruct (api_signup_storage username email password w) as (r & w1 & Hl & He).
  rewrite Hl. destruct r as [[u t]|e1]; [discriminate|].
  intros [= <- <- <-]. split; [reflexivity|].
  apply (login_effect_failure _ _ _ He).
Qed.
End Session.

(** ** Sorting by time *)

Section Sorting.
Context {A : Type} (key : A → Z).

Local Abbreviation cmp := (laterFirst key).
Local Abbreviation later := (noEarlier key).

Lemma insert_sorted_perm (x : A) (l : list A) :
  insert_sorted cmp x l ≡ₚ x :: l.
Proof.
  induction l as [|y l IH]; simpl; [reflexivity|].
  destruct (cmp x y <=? 0); [reflexivity|].
  rewrite IH. apply Permutation_swap.
Qed.

Lemma sort_perm (l : list A) : sort cmp l ≡ₚ l.
Proof.
  induction l as [|x l IH]; simpl; [reflexivity|].
  rewrite insert_sorted_perm, IH. reflexivity.
Qed.

Lemma insert_sorted_sorted (x : A) (l : list A) :
  StronglySorted later l → StronglySorted later (insert_sorted cmp x l).
Proof.
  induction 1 as [|y l Hs IH Hy]; simpl.
  - repeat constructor.
  - destruct (cmp x y <=? 0) eqn:E.
    + apply Z.leb_le in E. unfold laterFirst in E.
      constructor; [constructor; assumption|].
      constructor; [unfold noEarlier; lia|].
      eapply Forall_impl; [exact Hy|]. unfold noEarlier. intros; lia.
    + apply Z.leb_gt in E. unfold laterFirst in E.
      constructor; [exact IH|].
      rewrite insert_sorted_perm. constructor; [unfold noEarlier; lia|exact Hy].
Qed.

Lemma sort_sorted (l : list A) : StronglySorted later (sort cmp l).
Proof.
  induction l as [|x l IH]; simpl; [constructor|].
  apply insert_sorted_sorted, IH.
Qed.

Lemma sorted_descending (l : list A) :
  StronglySorted later l ↔ descending key l.
Proof.
  split.
  - induction 1 as [|x l Hs IH Hx]; intros i j a b Hij Hi Hj.
    + rewrite lookup_nil in Hi. discriminate.
    + destruct j as [|j]; [lia|]. simpl in Hj.
      destruct i as [|i]; simpl in Hi.
      * injection Hi as <-. rewrite Forall_forall in Hx.
        apply Hx. eapply list_elem_of_lookup_2, Hj.
      * apply (IH i j); [lia|assumption..].
  - induction l as [|x l IH]; intros Hd; constructor.
    + apply IH. intros i j a b Hij Hi Hj.
      apply (Hd (S i) (S j)); [lia|assumption..].
    + apply Forall_forall. intros y Hy.
      apply list_elem_of_lookup_1 in Hy as [j Hj].
      apply (Hd 0%nat (S j)); [lia|reflexivity|exact Hj].
Qed.

Lemma insert_sorted_filter (x : A) (l : list A) (k : Z) :
  filter (fun n => key n = k) (insert_sorted cmp x l)
  = filter (fun n => key n = k) (x :: l).
Proof.
  induction l as [|y l IH]; simpl; [reflexivity|].
  destruct (cmp x y <=? 0) eqn:E; [reflexivity|].
  apply Z.leb_gt in E. unfold laterFirst in E.
  rewrite (filter_cons _ y), IH, !filter_cons.
  destruct (decide (key y = k)), (decide (key x = k)); try reflexivity; lia.
Qed.

Lemma sort_stable (l : list A) : stable_wrt key l (sort cmp l).
Proof.
  intros k. induction l as [|x l IH]; simpl; [reflexivity|].
  rewrite insert_sorted_filter, !filter_cons, IH. reflexivity.
Qed.

(** The two requirements determine the result: whatever algorithm the
    engine runs, a stable sort by this comparator returns [sort cmp l]. *)
Lemma sorted_stable_unique (l1 l2 : list A) :
  StronglySorted later l1 → StronglySorted later l2 →
  (∀ k, filter (fun n => key n = k) l1 = filter (fun n => key n = k) l2) →
  l1 = l2.
Proof.
  intros H1. revert l2.
  induction H1 as [|a l1 Hs1 IH Ha]; intros l2 H2 Hf.
  - destruct l2 as [|b l2]; [reflexivity|].
    specialize (Hf (key b)). rewrite filter_cons in Hf.
    destruct (decide (key b = key b)); [discriminate|congruence].
  - destruct H2 as [|b l2 Hs2 Hb].
    { specialize (Hf (key a)). rewrite filter_cons in Hf.
      destruct (decide (key a = key a)); [discriminate|congruence]. }
    assert (Hab : key a = key b).
    { assert (key b ≤ key a).
      { assert (Hin : b ∈ a :: l1).
        { assert (Hin : b ∈ filter (fun n => key n = key b) (a :: l1)).
          { rewrite Hf. apply list_elem_of_filter. split; [reflexivity|left]. }
          apply list_elem_of_filter in Hin. tauto. }
        apply elem_of_cons in Hin as [->|Hin]; [lia|].
        rewrite Forall_forall in Ha. apply Ha, Hin. }
      assert (key a ≤ key b).
      { assert (Hin : a ∈ b :: l2).
        { assert (Hin : a ∈ filter (fun n => key n = key a) (b :: l2)).
          { rewrite <- Hf. apply list_elem_of_filter. split; [reflexivity|left]. }
          apply list_elem_of_filter in Hin. tauto. }
        apply elem_of_cons in Hin as [->|Hin]; [lia|].
        rewrite Forall_forall in Hb. apply Hb, Hin. }
      lia. }
    pose proof (Hf (key a)) as Hk. rewrite !filter_cons in Hk.
    destruct (decide (key a = key a)); [|congruence].
    destruct (decide (key b = key a)); [|congruence].
    injection Hk as <- Hk. f_equal.
    apply IH; [assumption|]. intros k.
    destruct (decide (k = key a)) as [->|Hne]; [exact Hk|].
    specialize (Hf k). rewrite !filter_cons in Hf.
    destruct (decide (key a = k)); [congruence|]. exact Hf.
Qed.

Lemma sort_unique (l l' : list A) :
  descending key l' → stable_wrt key l l' → l' = sort cmp l.
Proof.
  intros Hd Hst. apply sorted_stable_unique.
  - apply sorted_descending, Hd.
  - apply sort_sorted.
  - intros k. rewrite Hst. symmetry. apply sort_stable.
Qed.
End Sorting.

(** ** The notes page *)

Section Notes.
Context `{Platform}.

Lemma fetchNotes_run (user : Value) (h : HomePage.State) (w : World) :
  HomePage.fetchNotes user (h, w) =
    if truthy user then
      match api.getNotesForUser w with
      | (Normal l, w1) =>
          (Normal tt,
           (HomePage.MkState (sort HomePage.byLastUpdate l) false (HomePage.error h)
              (HomePage.isModalOpen h) (HomePage.editingNote h), w1))
      | (Throw e, w1) =>
          (Normal tt,
           (HomePage.MkState (HomePage.notes h) false (Some "Failed to fetch notes.")
              (HomePage.isModalOpen h) (HomePage.editingNote h), w1))
      end
    else (Normal tt, (h, w)).
Proof.
  unfold HomePage.fetchNotes.
  destruct (truthy user); simpl; [|reflexivity].
  unfold bind at 1. simpl.
  unfold try_finally, try_catch. unfold bind at 1.
  unfold HomePage.world at 1, zoom. simpl.
  destruct (api.getNotesForUser w) as [[l|e] w1]; reflexivity.
Qed.

(** [fetchNotes] never rejects. *)
Lemma fetchNotes_returns (user : Value) (c : HomePage.Ctx) :
  fst (HomePage.fetchNotes user c) = Normal tt.
Proof.
  destruct c as [h w]. rewrite fetchNotes_run.
  destruct (truthy user); [|reflexivity].
  destruct (api.getNotesForUser w) as [[l|e] w1]; reflexivity.
Qed.

Lemma handleSaveNote_run (user title content : Value) (h : HomePage.State) (w : World) :
  HomePage.handleSaveNote user title content (h, w) =
    if truthy user then
      match saveCall h title content w with
      | (Normal _, w1) =>
          (Normal tt,
           (closed (fst (snd (HomePage.fetchNotes user (h, w1)))),
            snd (snd (HomePage.fetchNotes user (h, w1)))))
      | (Throw e, w1) => (Normal tt, (h, add_alert "Failed to save note." w1))
      end
    else (Normal tt, (h, w)).
Proof.
  unfold HomePage.handleSaveNote, saveCall.
  destruct (truthy user); simpl; [|reflexivity].
  unfold bind at 1, gets. simpl. unfold try_catch.
  unfold bind at 1.
  destruct (HomePage.editingNote h) as [note|].
  - unfold bind at 1. unfold HomePage.world at 1, zoom. simpl.
    destruct (api.updateNote (types.id note) title content w) as [[v|e] w1];
      [|reflexivity].
    simpl. unfold bind at 1.
    pose proof (fetchNotes_returns user (h, w1)) as Hr.
    destruct (HomePage.fetchNotes user (h, w1)) as [r [h1 w2]]. simpl in Hr.
    subst r. reflexivity.
  - unfold bind at 1. unfold HomePage.world at 1, zoom. simpl.
    destruct (api.createNote title content w) as [[v|e] w1]; [|reflexivity].
    simpl. unfold bind at 1.
    pose proof (fetchNotes_returns user (h, w1)) as Hr.
    destruct (HomePage.fetchNotes user (h, w1)) as [r [h1 w2]]. simpl in Hr.
    subst r. reflexivity.
Qed.

(** The notes come out of [getNotesForUser] in the order of the array the
    backend sent, each one normalised. *)
Lemma mapC_Forall2 {A B} (f : A → Completion B) (items : list A) (l : list B) :
  mapC f items = Normal l → Forall2 (fun x y => f x = Normal y) items l.
Proof.
  revert l. induction items as [|x items IH]; intros l; simpl.
  - intros [= <-]. constructor.
  - destruct (f x) as [y|e] eqn:Hx; [|discriminate].
    destruct (mapC f items) as [ys|e]; [|discriminate].
    intros [= <-]. constructor; [exact Hx|]. apply IH. reflexivity.
Qed.

(** The list [getNotesForUser] returns is the array of the response,
    element by element in the order of the backend. *)
Lemma getNotesForUser_order (w w1 : World) (l : list Note) :
  api.getNotesForUser w = (Normal l, w1) →
  ∃ r response items,
    server w (requests w) r = Responded response ∧
    fst (handleResponse response w) = Normal (VArr items) ∧
    Forall2 (fun raw n => normalizeNote raw = Normal n) items l.
Proof.
  unfold api.getNotesForUser, bind.
  pose proof (getAuthHeaders_world w) as Hw.
  destruct (getAuthHeaders w) as [[hs|e] w0]; simpl in Hw; subst w0;
    [|discriminate].
  unfold fetch.
  match goal with |- context [server w (requests w) ?q] => set (r := q) end.
  destruct (server w (requests w) r) as [e|response] eqn:Hs; [discriminate|].
  rewrite (handleResponse_pure response (add_request r w) w).
  destruct (handleResponse response w).1 as [v|e] eqn:Hv; [|discriminate].
  destruct v; try discriminate.
  unfold liftC. destruct (mapC normalizeNote items) as [l'|e] eqn:Hm; [|discriminate].
  intros [= <- <-]. exists r, response, items.
  split; [exact Hs|]. split; [exact Hv|]. apply mapC_Forall2, Hm.
Qed.
(** C3: a refresh whose fetch succeeds publishes the fetched notes sorted
    by [last_update], later first, notes with the same [last_update] in the
    order they were fetched in. *)
Theorem refresh_publishes_sorted (user : Value) (h : HomePage.State)
    (w w1 : World) (l : list Note) :
  truthy user = true →
  api.getNotesForUser w = (Normal l, w1) →
  ∃ h', HomePage.fetchNotes user (h, w) = (Normal tt, (h', w1)) ∧
        HomePage.notes h' = sort HomePage.byLastUpdate l ∧
        HomePage.notes h' ≡ₚ l ∧
        descending types.last_update (HomePage.notes h') ∧
        stable_wrt types.last_update l (HomePage.notes h').
Proof.
  intros Hu Hg. rewrite fetchNotes_run, Hu, Hg.
  eexists. split; [reflexivity|]. simpl.
  change HomePage.byLastUpdate with (laterFirst types.last_update).
  split; [reflexivity|].
  split; [apply sort_perm|].
  split; [apply sorted_descending, sort_sorted|apply sort_stable].
Qed.

(** C7: a refresh whose fetch fails sets the error and keeps the list; a
    refresh without a user changes nothing, the log of requests
    included. *)
Theorem refresh_failure_and_guard (user : Value) (h : HomePage.State) (w : World) :
  (∀ e w1, truthy user = true →
           api.getNotesForUser w = (Throw e, w1) →
           ∃ h', HomePage.fetchNotes user (h, w) = (Normal tt, (h', w1)) ∧
                 HomePage.error h' = Some "Failed to fetch notes." ∧
                 HomePage.notes h' = HomePage.notes h) ∧
  (truthy user = false →
   HomePage.fetchNotes user (h, w) = (Normal tt, (h, w))).
Proof.
  split.
  - intros e w1 Hu Hg. rewrite fetchNotes_run, Hu, Hg.
    eexists. split; [reflexivity|]. split; reflexivity.
  - intros Hu. rewrite fetchNotes_run, Hu. reflexivity.
Qed.

(** C9: a second refresh that gets from the backend what the first one got
    leaves the page as the first one left it, the ordered list
    included. *)
Theorem refresh_idempotent (user : Value) (h : HomePage.State) (w : World) :
  let c1 := snd (HomePage.fetchNotes user (h, w)) in
  let c2 := snd (HomePage.fetchNotes user c1) in
  fst (api.getNotesForUser (snd c1)) = fst (api.getNotesForUser w) →
  HomePage.notes (fst c2) = HomePage.notes (fst c1) ∧ fst c2 = fst c1.
Proof.
  simpl. rewrite fetchNotes_run.
  destruct (truthy user) eqn:Hu.
  - destruct (api.getNotesForUser w) as [[l|e] w1] eqn:Hg; simpl;
      rewrite fetchNotes_run, Hu;
      destruct (api.getNotesForUser w1) as [[l'|e'] w2]; simpl;
      intros Heq; try discriminate.
    + injection Heq as ->. split; reflexivity.
    + split; reflexivity.
  - simpl. rewrite fetchNotes_run, Hu. simpl. intros _. split; reflexivity.
Qed.

(** [handleSaveNote] never rejects, so the modal always lowers [isSaving]
    again. *)
Lemma handleSaveNote_returns (user title content : Value) (c : HomePage.Ctx) :
  fst (HomePage.handleSaveNote user title content c) = Normal tt.
Proof.
  destruct c as [h w]. rewrite handleSaveNote_run.
  destruct (truthy user); [|reflexivity].
  destruct (saveCall h title content w) as [[v|e] w1]; reflexivity.
Qed.

Lemma clickSave_run (user : Value) (m : NoteModal.State) (h : HomePage.State) (w : World) :
  truthy user = true →
  HomePage.isModalOpen h = true →
  NoteModal.isSaving m = false →
  Screen.clickSave user (m, (h, w)) =
    match saveCall h (NoteModal.title m) (NoteModal.content m) w with
    | (Normal _, w1) =>
        (Normal tt,
         (m, (closed (fst (snd (HomePage.fetchNotes user (h, w1)))),
              snd (snd (HomePage.fetchNotes user (h, w1))))))
    | (Throw e, w1) => (Normal tt, (m, (h, add_alert "Failed to save note." w1)))
    end.
Proof.
  intros Hu Hopen Hsaving.
  unfold Screen.clickSave. unfold bind at 1, gets. simpl.
  rewrite Hopen, Hsaving. simpl.
  unfold Screen.event. unfold bind at 1, gets. simpl.
  unfold bind at 1. unfold NoteModal.handleSave.
  unfold bind at 1, gets. simpl.
  unfold bind at 1. simpl. unfold bind at 1.
  unfold NoteModal.parent at 1, zoom. simpl.
  rewrite handleSaveNote_run, Hu.
  destruct m as [t c sv dl]. simpl in Hsaving. subst sv. simpl.
  destruct (saveCall h t c w) as [[v|e] w1]; simpl.
  - unfold Screen.rerender, bind, gets. simpl.
    destruct (decide _) as [Heq|Hne]; [reflexivity|].
    reflexivity.
  - unfold Screen.rerender, bind, gets. simpl.
    destruct (decide _) as [Heq|Hne]; [reflexivity|contradiction].
Qed.

(** C6: a save from the open editor.  When the create or update request
    fails, the page and the modal stay exactly as they were, the list, the
    open editor and the entered title and content included, and one alert
    "Failed to save note." is raised.  When it succeeds, the page is the
    one [fetchNotes] produces, with the editor closed.  The list differs
    afterwards only when the request and the fetch after it both
    succeeded, and then it is the sorted fetched list. *)
Theorem save_outcomes (user : Value) (m : NoteModal.State) (h : HomePage.State)
    (w : World) :
  truthy user = true →
  HomePage.isModalOpen h = true →
  NoteModal.isSaving m = false →
  let call := saveCall h (NoteModal.title m) (NoteModal.content m) in
  (∀ e w1, call w = (Throw e, w1) →
     Screen.clickSave user (m, (h, w))
       = (Normal tt, (m, (h, add_alert "Failed to save note." w1)))) ∧
  (∀ v w1, call w = (Normal v, w1) →
     ∃ h1 w2, HomePage.fetchNotes user (h, w1) = (Normal tt, (h1, w2)) ∧
       Screen.clickSave user (m, (h, w)) = (Normal tt, (m, (closed h1, w2))) ∧
       HomePage.isModalOpen (closed h1) = false) ∧
  (∀ r m' h' w', Screen.clickSave user (m, (h, w)) = (r, (m', (h', w'))) →
     HomePage.notes h' ≠ HomePage.notes h →
     ∃ v w1 l, call w = (Normal v, w1) ∧
       api.getNotesForUser w1 = (Normal l, w') ∧
       HomePage.notes h' = sort HomePage.byLastUpdate l).
Proof.
  intros Hu Hopen Hsaving call. subst call.
  pose proof (clickSave_run user m h w Hu Hopen Hsaving) as Hrun.
  repeat split.
  - intros e w1 Hc. rewrite Hrun, Hc. reflexivity.
  - intros v w1 Hc. rewrite Hrun, Hc.
    pose proof (fetchNotes_returns user (h, w1)) as Hr.
    destruct (HomePage.fetchNotes user (h, w1)) as [r [h1 w2]]. simpl in Hr.
    subst r. exists h1, w2. repeat split.
  - intros r m' h' w'. rewrite Hrun.
    destruct (saveCall h (NoteModal.title m) (NoteModal.content m) w)
      as [[v|e] w1].
    + rewrite fetchNotes_run, Hu.
      destruct (api.getNotesForUser w1) as [[l|e] w2] eqn:Hg; simpl;
        intros [= <- <- <- <-] Hne; simpl in Hne.
      * exists v, w1, l. repeat split. exact Hg.
      * contradiction.
    + intros [= <- <- <- <-] Hne. contradiction.
Qed.

Lemma unprompted_refl (w : World) : unprompted w w.
Proof. split; [reflexivity|]. exists []. symmetry. apply app_nil_r. Qed.

Lemma unprompted_trans (w1 w2 w3 : World) :
  unprompted w1 w2 → unprompted w2 w3 → unprompted w1 w3.
Proof.
  intros [Hc1 [n1 Hr1]] [Hc2 [n2 Hr2]]. split; [congruence|].
  exists (n1 ++ n2). rewrite Hr2, Hr1, app_assoc. reflexivity.
Qed.

Lemma fetch_unprompted (r : Request) (w : World) : unprompted w (snd (fetch r w)).
Proof.
  unfold fetch.
  destruct (server w (requests w) r); (split; [reflexivity|exists [r]; reflexivity]).
Qed.

Lemma deleteNote_unprompted (noteId : Value) (w : World) :
  unprompted w (snd (api.deleteNote noteId w)).
Proof.
  unfold api.deleteNote, bind.
  pose proof (getAuthHeaders_world w) as Hw.
  destruct (getAuthHeaders w) as [[hs|e] w1]; simpl in Hw; subst w1;
    [|apply unprompted_refl].
  match goal with |- context [fetch ?q w] => pose proof (fetch_unprompted q w) as Hf;
    destruct (fetch q w) as [[resp|e] w2] end; simpl in Hf; [|exact Hf].
  rewrite (handleResponse_pure resp w2 w2).
  destruct (handleResponse resp w2).1; exact Hf.
Qed.

Lemma getNotesForUser_unprompted (w : World) :
  unprompted w (snd (api.getNotesForUser w)).
Proof.
  unfold api.getNotesForUser, bind.
  pose proof (getAuthHeaders_world w) as Hw.
  destruct (getAuthHeaders w) as [[hs|e] w1]; simpl in Hw; subst w1;
    [|apply unprompted_refl].
  match goal with |- context [fetch ?q w] => pose proof (fetch_unprompted q w) as Hf;
    destruct (fetch q w) as [[resp|e] w2] end; simpl in Hf; [|exact Hf].
  rewrite (handleResponse_pure resp w2 w2).
  destruct (handleResponse resp w2).1 as [v|e]; [|exact Hf].
  destruct v; exact Hf.
Qed.

Lemma fetchNotes_unprompted (user : Value) (h : HomePage.State) (w : World) :
  unprompted w (snd (snd (HomePage.fetchNotes user (h, w)))).
Proof.
  rewrite fetchNotes_run.
  destruct (truthy user); [|apply unprompted_refl].
  pose proof (getNotesForUser_unprompted w) as Hg.
  destruct (api.getNotesForUser w) as [[l|e] w1]; exact Hg.
Qed.

Lemma handleDeleteNote_run (user : Value) (h : HomePage.State) (w : World) :
  HomePage.handleDeleteNote user (h, w) =
    match HomePage.editingNote h with
    | None => (Normal tt, (h, w))
    | Some note =>
        let yes := operator w (confirms w) (pageQuestion note) in
        let w1 := add_confirm (pageQuestion note) yes w in
        if yes then
          match api.deleteNote (types.id note) w1 with
          | (Normal _, w2) =>
              (Normal tt,
               (closed (fst (snd (HomePage.fetchNotes user (h, w2)))),
                snd (snd (HomePage.fetchNotes user (h, w2)))))
          | (Throw e, w2) =>
              (Normal tt,
               (h, add_console ("Delete error:" +:+ " " +:+ name e +:+ ": " +:+ message e)
                     (add_alert "Failed to delete note. Please try again." w2)))
          end
        else (Normal tt, (h, w1))
    end.
Proof.
  unfold HomePage.handleDeleteNote. unfold bind at 1, gets. simpl.
  destruct (HomePage.editingNote h) as [note|]; [|reflexivity].
  unfold bind at 1. unfold HomePage.world at 1, zoom, confirm. simpl.
  fold (pageQuestion note).
  destruct (operator w (confirms w) (pageQuestion note)); simpl; [|reflexivity].
  unfold try_catch. unfold bind at 1. unfold HomePage.world at 1, zoom. simpl.
  destruct (api.deleteNote (types.id note) _) as [[[]|e] w2]; simpl; [|reflexivity].
  unfold bind at 1.
  pose proof (fetchNotes_returns user (h, w2)) as Hr.
  destruct (HomePage.fetchNotes user (h, w2)) as [r [h1 w3]]. simpl in Hr.
  subst r. reflexivity.
Qed.

(** [handleDeleteNote] never rejects. *)
Lemma handleDeleteNote_returns (user : Value) (c : HomePage.Ctx) :
  fst (HomePage.handleDeleteNote user c) = Normal tt.
Proof.
  destruct c as [h w]. rewrite handleDeleteNote_run.
  destruct (HomePage.editingNote h) as [note|]; [|reflexivity]. simpl.
  destruct (operator w (confirms w) (pageQuestion note)); [|reflexivity].
  destruct (api.deleteNote _ _) as [[[]|e] w2]; reflexivity.
Qed.

(** The effect of the modal does nothing when the page is as it was or the
    modal is closed. *)
Lemma rerender_noop (user : Value) (before : HomePage.State) (m : NoteModal.State)
    (h : HomePage.State) (w : World) :
  h = before ∨ HomePage.isModalOpen h = false →
  Screen.rerender user before (m, (h, w)) = (Normal tt, (m, (h, w))).
Proof.
  intros Hc. unfold Screen.rerender, bind, gets. simpl.
  destruct (decide _) as [Heq|Hne]; [reflexivity|].
  destruct Hc as [->|Hclosed]; [contradiction|].
  unfold NoteModal.syncFields. simpl. rewrite Hclosed. reflexivity.
Qed.

Lemma clickDelete_run (user : Value) (m : NoteModal.State) (h : HomePage.State)
    (w : World) (note : Note) :
  HomePage.editingNote h = Some note →
  HomePage.isModalOpen h = true →
  NoteModal.isDeleting m = false →
  Screen.clickDelete user (m, (h, w)) =
    let yes := operator w (confirms w) (modalQuestion note) in
    let w1 := add_confirm (modalQuestion note) yes w in
    if yes then
      (Normal tt, (m, snd (HomePage.handleDeleteNote user (h, w1))))
    else (Normal tt, (m, (h, w1))).
Proof.
  intros Hnote Hopen Hdel.
  unfold Screen.clickDelete. unfold bind at 1, gets. simpl.
  rewrite Hopen, Hnote, Hdel. simpl.
  unfold Screen.event. unfold bind at 1, gets. simpl.
  unfold bind at 1. unfold NoteModal.handleDelete. simpl. rewrite Hnote. simpl.
  unfold bind at 1. unfold NoteModal.world at 1, NoteModal.parent, zoom, confirm. simpl.
  fold (modalQuestion note).
  destruct (operator w (confirms w) (modalQuestion note)); simpl.
  - unfold bind at 1. simpl. unfold try_finally.
    cbn [fst snd].
    pose proof (handleDeleteNote_returns user (h, add_confirm (modalQuestion note) true w)) as Hr.
    pose proof (handleDeleteNote_run user h (add_confirm (modalQuestion note) true w)) as Hrun.
    destruct (HomePage.handleDeleteNote user _) as [r [h' w']]. simpl in Hr. subst r.
    simpl. destruct m as [t c sv dl]. simpl in Hdel. subst dl. simpl.
    apply rerender_noop.
    rewrite Hnote in Hrun. simpl in Hrun.
    destruct (operator _ _ (pageQuestion note)).
    + destruct (api.deleteNote _ _) as [[[]|e] w2].
      * injection Hrun as -> _. right. reflexivity.
      * injection Hrun as -> _. left. reflexivity.
    + injection Hrun as -> _. left. reflexivity.
  - apply rerender_noop. left. reflexivity.
Qed.

Lemma clickDelete_disabled (user : Value) (m : NoteModal.State) (h : HomePage.State)
    (w : World) :
  HomePage.editingNote h = None ∨ HomePage.isModalOpen h = false
  ∨ NoteModal.isDeleting m = true →
  Screen.clickDelete user (m, (h, w)) = (Normal tt, (m, (h, w))).
Proof.
  intros Hc. unfold Screen.clickDelete. unfold bind at 1, gets. simpl.
  destruct Hc as [Hn|[Ho|Hd]].
  - rewrite Hn. simpl. rewrite andb_false_r. reflexivity.
  - rewrite Ho. reflexivity.
  - rewrite Hd. simpl. rewrite andb_false_r. reflexivity.
Qed.

(** C5: a click on Delete.  A DELETE request is among the requests it adds
    only if two questions were asked and both answered yes.  If a question
    was answered no, no request at all was added, and the page and the
    modal are as they were. *)
Theorem delete_needs_two_confirmations (user : Value) (m : NoteModal.State)
    (h : HomePage.State) (w : World) :
  ∃ m' h' w' newreq newconf,
    Screen.clickDelete user (m, (h, w)) = (Normal tt, (m', (h', w'))) ∧
    requests w' = requests w ++ newreq ∧
    confirms w' = confirms w ++ newconf ∧
    ((∃ r, r ∈ newreq ∧ method r = "DELETE") →
     ∃ q1 q2, newconf = [(q1, true); (q2, true)]) ∧
    ((∃ q, (q, false) ∈ newconf) → newreq = [] ∧ m' = m ∧ h' = h).
Proof.
  assert (Hnone : ∀ r : Request, r ∉ ([] : list Request)) by (intros r Hr; inversion Hr).
  destruct (HomePage.editingNote h) as [note|] eqn:Hnote;
    [destruct (HomePage.isModalOpen h) eqn:Hopen;
     [destruct (NoteModal.isDeleting m) eqn:Hdel|]|].
  2: { rewrite (clickDelete_run user m h w note Hnote Hopen Hdel). simpl.
       destruct (operator w (confirms w) (modalQuestion note)) eqn:Hyes1.
       - rewrite handleDeleteNote_run, Hnote. simpl.
         destruct (operator w _ (pageQuestion note)) eqn:Hyes2.
         + set (w1 := add_confirm (pageQuestion note) true
                        (add_confirm (modalQuestion note) true w)).
           pose proof (deleteNote_unprompted (types.id note) w1) as Hd.
           destruct (api.deleteNote (types.id note) w1) as [[[]|e] w2]; simpl in Hd |- *.
           * pose proof (fetchNotes_unprompted user h w2) as Hf.
             destruct (unprompted_trans _ _ _ Hd Hf) as [Hc [new Hr]].
             eexists _, _, _, new, _. split; [reflexivity|].
             split; [exact Hr|]. split.
             { rewrite Hc. simpl. rewrite <- app_assoc. reflexivity. }
             split; [eauto|].
             intros [q Hq]. exfalso.
             repeat (apply elem_of_cons in Hq as [Hq|Hq]; [discriminate|]).
             inversion Hq.
           * destruct Hd as [Hc [new Hr]].
             eexists _, _, _, new, _. split; [reflexivity|].
             split; [exact Hr|]. split.
             { simpl. rewrite Hc. simpl. rewrite <- app_assoc. reflexivity. }
             split; [eauto|].
             intros [q Hq]. exfalso.
             repeat (apply elem_of_cons in Hq as [Hq|Hq]; [discriminate|]).
             inversion Hq.
         + eexists _, _, _, [], _. split; [reflexivity|]. simpl.
           split; [symmetry; apply app_nil_r|].
           split; [rewrite <- app_assoc; reflexivity|].
           split; [intros [r [Hr _]]; destruct (Hnone r Hr)|auto].
       - eexists _, _, _, [], [_]. split; [reflexivity|]. simpl.
         split; [symmetry; apply app_nil_r|].
         split; [reflexivity|].
         split; [intros [r [Hr _]]; destruct (Hnone r Hr)|auto]. }
  all: rewrite clickDelete_disabled by auto;
    exists m, h, w, [], []; rewrite !app_nil_r;
    (split; [reflexivity|]); (split; [reflexivity|]); (split; [reflexivity|]);
    (split; [intros [r [Hr _]]; destruct (Hnone r Hr)|auto]).
Qed.
End Notes.

(** ** The properties on concrete runs *)

Section Examples.
#[local] Existing Instance examplePlatform.

(** A 401 with a structured body: the message is the body's [detail]. *)
Lemma handleResponse_error_message_witness :
  ok unauthorized = false ∧
  handleResponse unauthorized staleWorld
    = (Throw (MkError "Error" "Incorrect email or password"), staleWorld).
Proof.
  split; [reflexivity|].
  destruct (handleResponse_error_message unauthorized staleWorld eq_refl)
    as (e & He & Hdetail & _).
  rewrite He. f_equal. f_equal.
  apply (Hdetail _ _ eq_refl eq_refl). discriminate.
Defined.

(** C4 as stated fails: a 500 without a body gives the fixed message of the
    [catch], not the message with the status code, and a 503 without a body
    gives the very same message. *)
Lemma handleResponse_no_body_counterexample :
  ok (MkResponse 500 emptyBody) = false ∧
  fst (handleResponse (MkResponse 500 emptyBody) staleWorld)
    = Throw (MkError "Error" "An unknown error occurred.") ∧
  fst (handleResponse (MkResponse 500 emptyBody) staleWorld)
    ≠ Throw (MkError "Error" ("HTTP error! status: " +:+ pretty 500)) ∧
  fst (handleResponse (MkResponse 503 emptyBody) staleWorld)
    = fst (handleResponse (MkResponse 500 emptyBody) staleWorld).
Proof.
  split; [reflexivity|]. split; [reflexivity|]. split; [discriminate|reflexivity].
Qed.

(** [getMe] from a browser without a token. *)
Lemma tokenless_call_is_sent_witness :
  no_token (freshWorld tokenThenReject (fun _ _ => false)) ∧
  ∃ r, requests (snd (perform GetMe (freshWorld tokenThenReject (fun _ _ => false))))
         = [] ++ [r] ∧
       ¬ has_header "Authorization" (headers r) ∧
       headers r = [].
Proof.
  split; [left; reflexivity|].
  destruct (tokenless_call_is_sent GetMe (freshWorld tokenThenReject (fun _ _ => false)))
    as (_ & r & Hr & Hh & Hs & _); [left; reflexivity|].
  exists r. repeat split; assumption.
Defined.

(** Startup with a stale token: the session is cleared. *)
Lemma initAuth_failed_validation_witness :
  localStorage staleWorld !! "token" = Some "stale" ∧
  "stale" ≠ EmptyString ∧
  api.getMe staleWorld
    = (Throw (MkError "Error" "Could not validate credentials"),
       snd (api.getMe staleWorld)) ∧
  ∃ w', AuthProvider.initAuth (AuthProvider.initial, staleWorld)
          = (Normal tt, (AuthProvider.MkState VNull VNull false, w')) ∧
        localStorage w' !! "token" = None ∧
        localStorage w' !! "user" = None.
Proof.
  split; [reflexivity|]. split; [discriminate|]. split; [reflexivity|].
  destruct (initAuth_failed_validation staleWorld (snd (api.getMe staleWorld))
              "stale" (MkError "Error" "Could not validate credentials"))
    as (w' & Hrun & Ht & Hu & _); [reflexivity|discriminate|reflexivity|].
  exists w'. repeat split; assumption.
Defined.

(** A session from an empty store, with a login that fails after the token
    was written. *)
Lemma session_invariant_witness :
  always_inv (freshWorld tokenThenReject (fun _ _ => false)) ∧
  always_inv (snd (run_ops [OpInitAuth; OpLogin "alice@x.com" "pw1234"; OpInitAuth;
                            OpSignup "bob" "bob@x.com" "pw"; OpLogout]
                     (AuthProvider.initial, freshWorld tokenThenReject (fun _ _ => false)))).
Proof.
  assert (H0 : always_inv (freshWorld tokenThenReject (fun _ _ => false))).
  { split; [constructor|]. intros _. reflexivity. }
  split; [exact H0|].
  apply (session_invariant _ (AuthProvider.initial, _)). exact H0.
Defined.

(** Three notes, two of them updated at the same instant: the later one
    comes first, the other two keep their order. *)
Lemma refresh_publishes_sorted_witness :
  truthy alice = true ∧
  api.getNotesForUser (signedIn notesBackend (fun _ _ => true))
    = (Normal [note 1 "Groceries" 1704067200000; note 2 "Ideas" 1704153600000;
               note 3 "Chores" 1704067200000],
       snd (api.getNotesForUser (signedIn notesBackend (fun _ _ => true)))) ∧
  ∃ h', fst (snd (HomePage.fetchNotes alice
                    (HomePage.initial, signedIn notesBackend (fun _ _ => true)))) = h' ∧
        HomePage.notes h'
          = [note 2 "Ideas" 1704153600000; note 1 "Groceries" 1704067200000;
             note 3 "Chores" 1704067200000] ∧
        descending types.last_update (HomePage.notes h').
Proof.
  split; [reflexivity|]. split; [reflexivity|].
  destruct (refresh_publishes_sorted alice HomePage.initial
              (signedIn notesBackend (fun _ _ => true))
              (snd (api.getNotesForUser (signedIn notesBackend (fun _ _ => true))))
              [note 1 "Groceries" 1704067200000; note 2 "Ideas" 1704153600000;
               note 3 "Chores" 1704067200000])
    as (h' & Hrun & Hn & _ & Hd & _); [reflexivity|reflexivity|].
  exists h'. rewrite Hrun. split; [reflexivity|]. split; [|exact Hd].
  rewrite Hn. reflexivity.
Defined.

(** Two refreshes against a backend that serves the same notes. *)
Lemma refresh_idempotent_witness :
  let w := signedIn notesBackend (fun _ _ => true) in
  let c1 := snd (HomePage.fetchNotes alice (HomePage.initial, w)) in
  let c2 := snd (HomePage.fetchNotes alice c1) in
  fst (api.getNotesForUser (snd c1)) = fst (api.getNotesForUser w) ∧
  HomePage.notes (fst c2) = HomePage.notes (fst c1).
Proof.
  split; [reflexivity|].
  apply (refresh_idempotent alice HomePage.initial
           (signedIn notesBackend (fun _ _ => true))).
  reflexivity.
Defined.

(** A save while the backend is not reachable. *)
Lemma save_outcomes_witness :
  let h := editing (note 1 "Groceries" 1704067200000) in
  let w := signedIn offline (fun _ _ => true) in
  truthy alice = true ∧ HomePage.isModalOpen h = true ∧
  NoteModal.isSaving typed = false ∧
  Screen.clickSave alice (typed, (h, w))
    = (Normal tt,
       (typed,
        (h, add_alert "Failed to save note."
              (snd (saveCall h (NoteModal.title typed) (NoteModal.content typed) w))))).
Proof.
  intros h w. split; [reflexivity|]. split; [reflexivity|]. split; [reflexivity|].
  destruct (save_outcomes alice typed h w eq_refl eq_refl eq_refl) as (Hfail & _).
  apply (Hfail (MkError "TypeError" "Failed to fetch")). reflexivity.
Defined.

(** C1 at the failing input: the backend issues a token and then rejects
    [/users/me].  The login fails with the backend's message, the provider
    keeps no user and no token in memory, no user record is stored, and yet
    the token is in the store, where it was not before.  The same holds for
    a signup, which goes through the same login. *)
Theorem login_failure_keeps_token :
  let w := freshWorld tokenThenReject (fun _ _ => false) in
  let afterLogin := AuthProvider.login "alice@x.com" "pw1234" (loggedOut, w) in
  let afterSignup := AuthProvider.signup "alice" "alice@x.com" "pw1234" (loggedOut, w) in
  localStorage w !! "token" = None ∧
  (fst afterLogin = Throw (MkError "Error" "Could not validate credentials") ∧
   fst (snd afterLogin) = loggedOut ∧
   localStorage (snd (snd afterLogin)) !! "user" = None ∧
   localStorage (snd (snd afterLogin)) !! "token" = Some "tok") ∧
  (fst afterSignup = Throw (MkError "Error" "Could not validate credentials") ∧
   fst (snd afterSignup) = loggedOut ∧
   localStorage (snd (snd afterSignup)) !! "user" = None ∧
   localStorage (snd (snd afterSignup)) !! "token" = Some "tok").
Proof. vm_compute. repeat split; reflexivity. Qed.

(** A delete confirmed twice does reach the backend, and closes the
    editor. *)
Example delete_confirmed_twice :
  let h := editing (note 1 "Groceries" 1704067200000) in
  let result := Screen.clickDelete alice (typed, (h, signedIn notesBackend (fun _ _ => true))) in
  map method (requests (snd (snd (snd result)))) = ["DELETE"; "GET"] ∧
  map snd (confirms (snd (snd (snd result)))) = [true; true] ∧
  HomePage.isModalOpen (fst (snd (snd result))) = false.
Proof. vm_compute. repeat split; reflexivity. Qed.

(** Declined at the second question: nothing was sent. *)
Example delete_declined_by_page :
  let h := editing (note 1 "Groceries" 1704067200000) in
  let answer (asked : list (string * bool)) (_ : string) := bool_decide (asked = []) in
  let result := Screen.clickDelete alice (typed, (h, signedIn notesBackend answer)) in
  requests (snd (snd (snd result))) = [] ∧
  map snd (confirms (snd (snd (snd result)))) = [true; false] ∧
  fst (snd result) = typed ∧ fst (snd (snd result)) = h.
Proof. vm_compute. repeat split; reflexivity. Qed.
(** A refresh while the backend is not reachable, and one without a
    user. *)
Lemma refresh_failure_and_guard_witness :
  let w := signedIn offline (fun _ _ => true) in
  let opened := editing (note 1 "Groceries" 1704067200000) in
  (truthy alice = true ∧
   api.getNotesForUser w
     = (Throw (MkError "TypeError" "Failed to fetch"), snd (api.getNotesForUser w)) ∧
   ∃ h', HomePage.fetchNotes alice (opened, w)
           = (Normal tt, (h', snd (api.getNotesForUser w))) ∧
         HomePage.error h' = Some "Failed to fetch notes." ∧
         HomePage.notes h' = HomePage.notes opened) ∧
  (truthy VNull = false ∧
   HomePage.fetchNotes VNull (opened, w) = (Normal tt, (opened, w))).
Proof.
  intros w opened.
  destruct (refresh_failure_and_guard alice opened w) as [Hfail _].
  destruct (refresh_failure_and_guard VNull opened w) as [_ Hguard].
  split.
  - split; [reflexivity|]. split; [reflexivity|].
    apply (Hfail (MkError "TypeError" "Failed to fetch")); reflexivity.
  - split; [reflexivity|]. apply Hguard. reflexivity.
Defined.

(** A delete confirmed in the modal and declined at the second question. *)
Lemma delete_needs_two_confirmations_witness :
  let h := editing (note 1 "Groceries" 1704067200000) in
  let answer (asked : list (string * bool)) (_ : string) := bool_decide (asked = []) in
  let w := signedIn notesBackend answer in
  ∃ m' h' w', Screen.clickDelete alice (typed, (h, w)) = (Normal tt, (m', (h', w'))) ∧
              map snd (confirms w') = [true; false] ∧
              requests w' = [] ∧ m' = typed ∧ h' = h.
Proof.
  intros h answer w.
  destruct (delete_needs_two_confirmations alice typed h w)
    as (m' & h' & w' & newreq & newconf & Hrun & Hreq & Hconf & _ & Hdeclined).
  exists m', h', w'. split; [exact Hrun|].
  assert (Hw' : confirms w' = [(modalQuestion (note 1 "Groceries" 1704067200000), true);
                               (pageQuestion (note 1 "Groceries" 1704067200000), false)]).
  { change w' with (snd (snd (snd (@Normal unit tt, (m', (h', w')))))).
    rewrite <- Hrun. reflexivity. }
  split; [rewrite Hw'; reflexivity|].
  rewrite Hw' in Hconf. simpl in Hconf. subst newconf.
  destruct Hdeclined as (-> & -> & ->).
  { eexists. right. left. }
  repeat split. rewrite Hreq. reflexivity.
Defined.
End Examples.

(** ** The requests of the API client *)

Section ApiRequests.
Context `{Platform}.

Lemma getAuthHeaders_run (w : World) : getAuthHeaders w = (Normal (bearer w), w).
Proof.
  unfold getAuthHeaders, bearer, bind, getItem, gets.
  destruct (localStorage w !! "token") as [t|]; simpl; [|reflexivity].
  destruct (String.eqb t EmptyString); reflexivity.
Qed.

Lemma bearer_token (w : World) (t : string) :
  localStorage w !! "token" = Some t → t ≠ EmptyString →
  bearer w = [("Authorization", "Bearer " +:+ t)].
Proof.
  intros Ht Hne. unfold bearer. rewrite Ht.
  destruct (String.eqb t EmptyString) eqn:E; [|reflexivity].
  apply String.eqb_eq in E. contradiction.
Qed.

(** What [fetch] followed by [handleResponse] gives, by the answer of the
    server. *)
Lemma fetch_handle (r : Request) (w : World) :
  bind (fetch r) handleResponse w =
    match server w (requests w) r with
    | NetworkError e => (Throw e, add_request r w)
    | Responded resp => (fst (handleResponse resp w), add_request r w)
    end.
Proof.
  unfold bind, fetch.
  destruct (server w (requests w) r) as [e|resp]; [reflexivity|].
  apply handleResponse_pure.
Qed.

Lemma getMe_run (w : World) :
  api.getMe w = bind (fetch (meRequest (bearer w))) handleResponse w.
Proof. unfold api.getMe. unfold bind at 1. rewrite getAuthHeaders_run. reflexivity. Qed.

Lemma deleteNote_run (noteId : Value) (w : World) :
  api.deleteNote noteId w =
    match bind (fetch (deleteRequest noteId (bearer w))) handleResponse w with
    | (Normal _, w') => (Normal tt, w')
    | (Throw e, w') => (Throw e, w')
    end.
Proof.
  unfold api.deleteNote. unfold bind at 1. rewrite getAuthHeaders_run.
  unfold bind. fold (deleteRequest noteId (bearer w)).
  destruct (fetch _ w) as [[resp|e] w1]; [|reflexivity].
  destruct (handleResponse resp w1) as [[v|e] w2]; reflexivity.
Qed.

Lemma handleResponse_accepted (response : Response) (w : World) :
  (∃ v, fst (handleResponse response w) = Normal v) ↔ accepted response.
Proof.
  unfold accepted, handleResponse. split.
  - intros [v Hv]. destruct (ok response) eqn:Hok; simpl in Hv.
    + split; [reflexivity|].
      destruct (status response =? 204) eqn:E; [left; lia|right].
      unfold liftC, json in Hv. simpl in Hv.
      destruct (payload response); [discriminate|eauto].
    + exfalso. unfold bind, try_catch, liftC, ret, throw in Hv.
      destruct (json response); simpl in Hv;
        [destruct (getProp _ _)|]; discriminate.
  - intros [Hok Hb]. rewrite Hok. simpl.
    destruct (status response =? 204) eqn:E; [eexists; reflexivity|].
    destruct Hb as [Hb|[v Hv]]; [lia|].
    unfold liftC, json. rewrite Hv. eexists; reflexivity.
Qed.

(** X1: with a token in the store, every authenticated call sends one
    request whose only Authorization header is the bearer of that token,
    and writes nothing to the store. *)
Theorem authenticated_call_carries_bearer (c : AuthenticatedCall) (w : World) (t : string) :
  localStorage w !! "token" = Some t → t ≠ EmptyString →
  ∃ r, requests (snd (perform c w)) = requests w ++ [r] ∧
       headers r = match c with
                   | CreateNote _ _ | UpdateNote _ _ _ =>
                       [("Content-Type", "application/json");
                        ("Authorization", "Bearer " +:+ t)]
                   | _ => [("Authorization", "Bearer " +:+ t)]
                   end ∧
       (∀ v, ("Authorization", v) ∈ headers r → v = "Bearer " +:+ t) ∧
       storage_same w (snd (perform c w)).
Proof.
  intros Ht Hne. pose proof (bearer_token w t Ht Hne) as Hb.
  assert (Hone : ∀ hs v,
            hs = [("Authorization", "Bearer " +:+ t)] ∨
            hs = [("Content-Type", "application/json");
                  ("Authorization", "Bearer " +:+ t)] →
            ("Authorization", v) ∈ hs → v = "Bearer " +:+ t).
  { intros hs v [->| ->] Hv.
    - apply list_elem_of_singleton in Hv. congruence.
    - apply elem_of_cons in Hv as [Hv|Hv]; [discriminate|].
      apply list_elem_of_singleton in Hv. congruence. }
  destruct c; simpl;
    unfold api.getMe, api.getNotesForUser, api.createNote, api.updateNote,
      api.deleteNote, bind; rewrite getAuthHeaders_run, Hb; unfold fetch;
    match goal with
    | |- context [server w (requests w) ?q] => exists q; set (r := q)
    end;
    (destruct (server w (requests w) r) as [e|response] eqn:Hs; simpl;
     [ repeat split; eauto
     | rewrite (handleResponse_pure response (add_request r w) w);
       repeat split; eauto ]).
  all: destruct (handleResponse response w).1 as [v|e]; try reflexivity.
  all: try (destruct v; simpl; try reflexivity;
            unfold liftC; destruct (mapC normalizeNote items); reflexivity).
Qed.

Lemma api_login_run (email password : string) (w : World) :
  api.login email password w =
    let w1 := add_request (loginRequest email password) w in
    match server w (requests w) (loginRequest email password) with
    | NetworkError e => (Throw e, w1)
    | Responded resp =>
        match fst (handleResponse resp w) with
        | Throw e => (Throw e, w1)
        | Normal data =>
            match getProp data "access_token" with
            | Throw e => (Throw e, w1)
            | Normal tok =>
                match api.getMe (snd (setItem "token" tok w1)) with
                | (Throw e, w3) => (Throw e, w3)
                | (Normal u, w3) =>
                    (Normal (u, tok), snd (setItem "user" (stringify u) w3))
                end
            end
        end
    end.
Proof.
  unfold api.login. fold (loginRequest email password).
  unfold bind at 1, fetch.
  destruct (server w (requests w) (loginRequest email password)) as [e|resp];
    [reflexivity|].
  unfold bind at 1.
  rewrite (handleResponse_pure resp (add_request _ w) w).
  destruct (handleResponse resp w).1 as [data|e]; [|reflexivity].
  unfold bind at 1, liftC.
  destruct (getProp data "access_token") as [tok|e]; [|reflexivity].
  unfold bind at 1. simpl. unfold bind at 1.
  destruct (api.getMe _) as [[u|e] w3]; reflexivity.
Qed.

(** X2: when the credential exchange hands out a token, [login] has sent
    exactly two requests: the form post, without any Authorization header
    whatever the store held, and then [/users/me] with the bearer of the
    token just received, which is also the token now in the store. *)
Theorem login_request_sequence (email password : string) (w : World)
    (resp : Response) (data tok : Value) :
  server w (requests w) (loginRequest email password) = Responded resp →
  fst (handleResponse resp w) = Normal data →
  getProp data "access_token" = Normal tok →
  ToString tok ≠ EmptyString →
  let w' := snd (api.login email password w) in
  requests w' = requests w ++
    [loginRequest email password;
     meRequest [("Authorization", "Bearer " +:+ ToString tok)]] ∧
  ¬ has_header "Authorization" (headers (loginRequest email password)) ∧
  localStorage w' !! "token" = Some (ToString tok).
Proof.
  intros Hs Hd Ht Hne w'. subst w'. rewrite api_login_run. cbv zeta.
  rewrite Hs, Hd, Ht.
  set (w1 := add_request (loginRequest email password) w).
  set (w2 := snd (setItem "token" tok w1)).
  assert (Hb : bearer w2 = [("Authorization", "Bearer " +:+ ToString tok)]).
  { apply bearer_token; [apply lookup_insert_eq|exact Hne]. }
  rewrite getMe_run, fetch_handle, Hb.
  split; [|split].
  - destruct (server w2 _ _) as [e|r]; [|destruct (handleResponse r w2).1];
      simpl; rewrite <- app_assoc; reflexivity.
  - intros [v Hv]. apply list_elem_of_singleton in Hv. discriminate.
  - destruct (server w2 _ _) as [e|r]; [|destruct (handleResponse r w2).1]; simpl;
      rewrite ?lookup_insert_ne by discriminate; apply lookup_insert_eq.
Qed.

Lemma api_signup_run (username email password : string) (w : World) :
  api.signup username email password w =
    let w1 := add_request (signupRequest username email password) w in
    match server w (requests w) (signupRequest username email password) with
    | NetworkError e => (Throw e, w1)
    | Responded resp =>
        match fst (handleResponse resp w) with
        | Normal _ => api.login email password w1
        | Throw e => (Throw e, w1)
        end
    end.
Proof.
  unfold api.signup. fold (signupRequest username email password).
  unfold bind at 1, fetch.
  destruct (server w (requests w) (signupRequest username email password))
    as [e|resp]; [reflexivity|].
  unfold bind at 1.
  rewrite (handleResponse_pure resp (add_request _ w) w).
  destruct (handleResponse resp w).1 as [v|e]; reflexivity.
Qed.

(** X3: [signup] is the registration followed by [login].  When the backend
    accepts the registration, the outcome is that of [login] with the same
    credentials; when it does not, [signup] fails having sent that one
    request, and [/login] is never called. *)
Theorem signup_is_register_then_login (username email password : string)
    (w : World) (resp : Response) :
  server w (requests w) (signupRequest username email password) = Responded resp →
  let w1 := add_request (signupRequest username email password) w in
  (accepted resp →
   api.signup username email password w = api.login email password w1) ∧
  (¬ accepted resp →
   ∃ e, api.signup username email password w = (Throw e, w1)).
Proof.
  intros Hs w1. subst w1. rewrite api_signup_run. cbv zeta. rewrite Hs.
  pose proof (handleResponse_accepted resp w) as Ha.
  destruct (handleResponse resp w).1 as [v|e].
  - split; [reflexivity|]. intros Hn. exfalso. apply Hn, Ha. eauto.
  - split; [|eauto].
    intros Hacc. apply Ha in Hacc as [v Hv]. discriminate.
Qed.

(** X4: [deleteNote] reports success exactly when the backend answered with
    a 204, or with another 2xx whose body parses; a 200 without a body is
    reported as a failure. *)
Theorem deleteNote_success_iff (noteId : Value) (w : World) :
  fst (api.deleteNote noteId w) = Normal tt ↔
  ∃ resp, server w (requests w) (deleteRequest noteId (bearer w)) = Responded resp ∧
          accepted resp.
Proof.
  rewrite deleteNote_run, fetch_handle.
  destruct (server w (requests w) _) as [e|resp] eqn:Hs.
  - split; [discriminate|]. intros (resp & [=] & _).
  - pose proof (handleResponse_accepted resp w) as Ha.
    destruct (handleResponse resp w).1 as [v|e]; simpl.
    + split; [|reflexivity]. intros _. exists resp. split; [reflexivity|].
      apply Ha. eauto.
    + split; [discriminate|]. intros (resp' & [= <-] & Hacc).
      apply Ha in Hacc as [v Hv]. discriminate.
Qed.
End ApiRequests.

(** ** What a fetch makes of the backend's notes *)

Section Normalisation.
Context `{Platform}.

Lemma Date_time_range (v : Value) (t : Z) :
  Date_time v = Some t → Z.abs t ≤ maxTime.
Proof.
  assert (Hclip : ∀ z, (if Z.abs z <=? 8640000000000000 then Some z else None) = Some t →
                       Z.abs t ≤ maxTime).
  { intros z Hz. destruct (Z.abs z <=? 8640000000000000) eqn:E; [|discriminate].
    injection Hz as <-. apply Z.leb_le in E. exact E. }
  assert (Hparse : ∀ s, (t' ← Date_parse s;
                         if Z.abs t' <=? 8640000000000000 then Some t' else None) = Some t →
                        Z.abs t ≤ maxTime).
  { intros s Hs. destruct (Date_parse s) as [t'|]; simpl in Hs; [|discriminate].
    eapply Hclip, Hs. }
  unfold Date_time. destruct v; try (intros Hv; eapply Hparse, Hv); try discriminate.
  - intros [= <-]. unfold maxTime. simpl. lia.
  - intros [= <-]. unfold maxTime. destruct b; simpl; lia.
  - apply Hclip.
Qed.

Lemma getProp_own (raw : Value) (p : string) (v : Value) :
  getProp raw p = Normal v → v = own raw p.
Proof. destruct raw; simpl; intros [=]; congruence. Qed.

Lemma normalizeNote_inv (raw : Value) (n : Note) :
  normalizeNote raw = Normal n → normalised raw n.
Proof.
  unfold normalizeNote, normalised.
  destruct (getProp raw "last_update") as [lu|e] eqn:Hlu; [|discriminate].
  apply getProp_own in Hlu. subst lu.
  destruct (Date_time (own raw "last_update")) as [t1|] eqn:H1; [|discriminate].
  destruct (Date_time (own raw "created_on")) as [t2|] eqn:H2; [|discriminate].
  simpl. intros [= <-]. simpl.
  repeat split; eauto using Date_time_range.
Qed.

Lemma mapC_throws {A B} (f : A → Completion B) (items : list A) (x : A) :
  x ∈ items → (∀ y, f x ≠ Normal y) → ∀ l, mapC f items ≠ Normal l.
Proof.
  intros Hx Hf l Hm. apply mapC_Forall2 in Hm.
  apply list_elem_of_lookup_1 in Hx as [i Hi].
  destruct (Forall2_lookup_l _ _ _ _ _ Hm Hi) as (y & _ & Hy).
  exact (Hf y Hy).
Qed.

Lemma getNotesForUser_run (w : World) :
  api.getNotesForUser w =
    let w1 := add_request (notesRequest (bearer w)) w in
    match server w (requests w) (notesRequest (bearer w)) with
    | NetworkError e => (Throw e, w1)
    | Responded resp =>
        match fst (handleResponse resp w) with
        | Throw e => (Throw e, w1)
        | Normal (VArr items) => (mapC normalizeNote items, w1)
        | Normal notesData =>
            (Throw (MkError "TypeError"
                      (match notesData with
                       | VUndefined | VNull =>
                           "Cannot read properties of " +:+ ToString notesData +:+
                           " (reading 'map')"
                       | _ => "notesData.map is not a function"
                       end)), w1)
        end
    end.
Proof.
  unfold api.getNotesForUser. unfold bind at 1. rewrite getAuthHeaders_run.
  fold (notesRequest (bearer w)). unfold bind at 1, fetch.
  destruct (server w (requests w) (notesRequest (bearer w))) as [e|resp];
    [reflexivity|].
  unfold bind at 1.
  rewrite (handleResponse_pure resp (add_request _ w) w).
  destruct (handleResponse resp w).1 as [v|e]; [|reflexivity].
  destruct v; reflexivity.
Qed.

(** X5: the notes a fetch returns are the elements of the array the backend
    sent, as many and in the same order, each with its id, owner, title and
    content as sent and with its two dates read as time values within the
    range of the platform. *)
Theorem getNotesForUser_normalises (w w1 : World) (l : list Note) :
  api.getNotesForUser w = (Normal l, w1) →
  ∃ resp items,
    server w (requests w) (notesRequest (bearer w)) = Responded resp ∧
    fst (handleResponse resp w) = Normal (VArr items) ∧
    w1 = add_request (notesRequest (bearer w)) w ∧
    length l = length items ∧
    Forall2 normalised items l.
Proof.
  rewrite getNotesForUser_run. cbv zeta.
  destruct (server w (requests w) _) as [e|resp] eqn:Hs; [discriminate|].
  destruct (handleResponse resp w).1 as [v|e] eqn:Hv; [|discriminate].
  destruct v; try discriminate.
  intros [= Hm <-]. apply mapC_Forall2 in Hm.
  exists resp, items.
  split; [reflexivity|]. split; [exact Hv|]. split; [reflexivity|]. split.
  - symmetry. eapply Forall2_length, Hm.
  - eapply Forall2_impl; [exact Hm|]. intros raw n. apply normalizeNote_inv.
Qed.

(** X6: one element without a readable [last_update] or [created_on] makes
    the whole refresh fail: the page keeps the list it had and shows the
    error, whatever the other elements are. *)
Theorem bad_date_hides_all_notes (user : Value) (h : HomePage.State) (w : World)
    (resp : Response) (items : list Value) (raw : Value) :
  truthy user = true →
  server w (requests w) (notesRequest (bearer w)) = Responded resp →
  fst (handleResponse resp w) = Normal (VArr items) →
  raw ∈ items →
  Date_time (own raw "last_update") = None ∨ Date_time (own raw "created_on") = None →
  HomePage.fetchNotes user (h, w) =
    (Normal tt,
     (HomePage.MkState (HomePage.notes h) false (Some "Failed to fetch notes.")
        (HomePage.isModalOpen h) (HomePage.editingNote h),
      add_request (notesRequest (bearer w)) w)).
Proof.
  intros Hu Hs Hv Hraw Hbad.
  rewrite fetchNotes_run, Hu, getNotesForUser_run. cbv zeta. rewrite Hs, Hv.
  assert (Hn : ∀ l, mapC normalizeNote items ≠ Normal l).
  { apply (mapC_throws _ _ raw Hraw). intros n Hn.
    apply normalizeNote_inv in Hn as (_ & _ & _ & _ & H1 & H2 & _).
    destruct Hbad; congruence. }
  destruct (mapC normalizeNote items) as [l|e]; [|reflexivity].
  destruct (Hn l eq_refl).
Qed.
End Normalisation.

Section Order.
Context {A : Type} (key : A → Z).

Lemma sort_latest_first (l : list A) (n : A) :
  n ∈ l → (∀ m, m ∈ l → m = n ∨ key m < key n) →
  ∃ rest, sort (laterFirst key) l = n :: rest.
Proof.
  intros Hn Hmax.
  pose proof (sort_perm key l) as Hp.
  pose proof (sort_sorted key l) as Hs.
  destruct (sort (laterFirst key) l) as [|x rest] eqn:E.
  - rewrite <- Hp in Hn. inversion Hn.
  - exists rest. f_equal.
    assert (Hx : x ∈ l) by (rewrite <- Hp; left).
    assert (Hle : key n ≤ key x).
    { rewrite <- Hp in Hn. apply elem_of_cons in Hn as [->|Hn]; [lia|].
      apply StronglySorted_inv in Hs as [_ Hall].
      rewrite Forall_forall in Hall. apply Hall, Hn. }
    destruct (Hmax x Hx) as [->|Hlt]; [reflexivity|lia].
Qed.

(** X7: a list that already runs from the latest to the earliest comes out
    of the sort as it went in. *)
Theorem sort_fixpoint (l : list A) :
  descending key l → sort (laterFirst key) l = l.
Proof.
  intros Hd. symmetry. apply sort_unique; [exact Hd|]. intros k. reflexivity.
Qed.
End Order.

Section Recency.
Context `{Platform}.

(** X8: after a refresh, a note updated later than every other note is the
    first of the list: the note just saved moves to the front. *)
Theorem latest_note_is_first (user : Value) (h : HomePage.State) (w w1 : World)
    (l : list Note) (n : Note) :
  truthy user = true →
  api.getNotesForUser w = (Normal l, w1) →
  n ∈ l →
  (∀ m, m ∈ l → m ≠ n → types.last_update m < types.last_update n) →
  ∃ rest, HomePage.notes (fst (snd (HomePage.fetchNotes user (h, w)))) = n :: rest.
Proof.
  intros Hu Hg Hn Hmax. rewrite fetchNotes_run, Hu, Hg. simpl.
  apply sort_latest_first; [exact Hn|].
  intros m Hm. destruct (decide (m = n)) as [->|Hne]; [left; reflexivity|].
  right. apply Hmax; assumption.
Qed.
End Recency.

(** ** The provider and the form *)

Section Provider.
Context `{Platform}.

Lemma login_effect_success (w : World) (u tok : Value) (w' : World) :
  login_effect w (Normal (u, tok)) w' →
  localStorage w' =
    <["user" := ToString (stringify u)]> (<["token" := ToString tok]> (localStorage w)).
Proof.
  intros [[[e He] _]|[(e & t & He & _)|(u' & tok' & He & Hl & _)]];
    try discriminate.
  injection He as <- <-. exact Hl.
Qed.

(** X9: a login or signup that succeeds leaves memory and store in
    agreement: the store holds the string of the token and the serialised
    user that the provider now has, and the loading flag is as it was. *)
Theorem successful_login_commits (op : SessionOp) (s s' : AuthProvider.State)
    (w w' : World) :
  op ≠ OpInitAuth → op ≠ OpLogout →
  run_op op (s, w) = (Normal tt, (s', w')) →
  localStorage w' !! "token" = Some (ToString (AuthProvider.token s')) ∧
  localStorage w' !! "user" = Some (ToString (stringify (AuthProvider.user s'))) ∧
  AuthProvider.isLoading s' = AuthProvider.isLoading s.
Proof.
  intros Hi Ho.
  assert (Hmain : ∀ (r : Completion (Value * Value)) w1,
            login_effect w r w1 →
            match r with
            | Normal (u, t) =>
                (Normal tt, (AuthProvider.MkState u t (AuthProvider.isLoading s), w1))
            | Throw e => (Throw e, (s, w1))
            end = (@Normal unit tt, (s', w')) →
            localStorage w' !! "token" = Some (ToString (AuthProvider.token s')) ∧
            localStorage w' !! "user" = Some (ToString (stringify (AuthProvider.user s'))) ∧
            AuthProvider.isLoading s' = AuthProvider.isLoading s).
  { intros [[u t]|e] w1 He; [|discriminate].
    intros [= <- <-]. simpl. apply login_effect_success in He. rewrite He.
    split; [|split; [|reflexivity]].
    - rewrite lookup_insert_ne by discriminate. apply lookup_insert_eq.
    - apply lookup_insert_eq. }
  destruct op as [|email password|username email password|]; try contradiction;
    cbn [run_op].
  - rewrite login_run.
    destruct (api_login_storage email password w) as (r & w1 & Hl & He).
    rewrite Hl. destruct r as [[u t]|e]; apply (Hmain _ _ He).
  - rewrite signup_run.
    destruct (api_signup_storage username email password w) as (r & w1 & Hl & He).
    rewrite Hl. destruct r as [[u t]|e]; apply (Hmain _ _ He).
Qed.

(** X10: startup with a token the backend accepts: the provider takes the
    user [getMe] returned and the stored token, the loading flag is down,
    the user record in the store is replaced by that user, and nothing else
    in the store changes. *)
Theorem initAuth_valid_token (s : AuthProvider.State) (w w1 : World)
    (t : string) (u : Value) :
  localStorage w !! "token" = Some t → t ≠ EmptyString →
  api.getMe w = (Normal u, w1) →
  ∃ w', AuthProvider.initAuth (s, w)
          = (Normal tt, (AuthProvider.MkState u (VStr t) false, w')) ∧
        localStorage w' = <["user" := ToString (stringify u)]> (localStorage w) ∧
        requests w' = requests w1 ∧
        App.render (AuthProvider.MkState u (VStr t) false)
          = if truthy u then App.Home u else App.Form.
Proof.
  intros Ht Hne Hg. rewrite initAuth_run, Ht, Hg.
  destruct (String.eqb t EmptyString) eqn:E.
  { apply String.eqb_eq in E. contradiction. }
  pose proof (getMe_storage w) as [Hs _]. rewrite Hg in Hs. simpl in Hs.
  eexists. split; [reflexivity|]. simpl. rewrite Hs.
  split; [reflexivity|]. split; [reflexivity|].
  unfold App.render, AuthProvider.isAuthenticated. simpl. reflexivity.
Qed.

(** X11: startup without a usable token sends no request and changes
    nothing but the loading flag: even a user record left in the store
    stays there. *)
Theorem initAuth_without_token (s : AuthProvider.State) (w : World) :
  no_token w →
  AuthProvider.initAuth (s, w)
    = (Normal tt,
       (AuthProvider.MkState (AuthProvider.user s) (AuthProvider.token s) false, w)).
Proof.
  intros [Hn|Hn]; rewrite initAuth_run, Hn; reflexivity.
Qed.

(** X12: after a logout, a reload of the page finds no session: startup
    validation sends nothing, the form is shown, and the store has neither
    entry.  The logout itself sent nothing either. *)
Theorem logout_then_reload (s : AuthProvider.State) (w : World) :
  let w1 := snd (snd (AuthProvider.logout (s, w))) in
  fst (snd (AuthProvider.logout (s, w)))
    = AuthProvider.MkState VNull VNull (AuthProvider.isLoading s) ∧
  requests w1 = requests w ∧
  localStorage w1 !! "token" = None ∧ localStorage w1 !! "user" = None ∧
  AuthProvider.initAuth (AuthProvider.initial, w1) = (Normal tt, (loggedOut, w1)) ∧
  App.render loggedOut = App.Form.
Proof.
  intros w1. subst w1. rewrite logout_run. cbn [fst snd].
  assert (Ht : ∀ st : gmap string string, delete "token" (delete "user" st) !! "token" = None)
    by (intros; apply lookup_delete_eq).
  assert (Hu : ∀ st : gmap string string, delete "token" (delete "user" st) !! "user" = None)
    by (intros; rewrite lookup_delete_ne by discriminate; apply lookup_delete_eq).
  split; [reflexivity|]. split; [reflexivity|].
  split; [apply Ht|]. split; [apply Hu|]. split; [|reflexivity].
  rewrite initAuth_run. simpl. rewrite Ht. reflexivity.
Qed.

Lemma login_effect_other_keys (w : World) r (w' : World) (k : string) :
  login_effect w r w' → k ≠ "token" → k ≠ "user" →
  localStorage w' !! k = localStorage w !! k.
Proof.
  intros [[_ [Hs _]]|[(e & tok & _ & Hl & _)|(u & tok & _ & Hl & _)]] Hk1 Hk2;
    rewrite ?Hs, ?Hl; [reflexivity| |].
  - apply lookup_insert_ne. congruence.
  - rewrite !lookup_insert_ne by congruence. reflexivity.
Qed.

Lemma run_op_other_keys (op : SessionOp) (c : AuthProvider.Ctx) (k : string) :
  k ≠ "token" → k ≠ "user" →
  localStorage (snd (snd (run_op op c))) !! k = localStorage (snd c) !! k.
Proof.
  intros Hk1 Hk2. destruct c as [s w]. cbn [snd].
  destruct op as [|email password|username email password|]; cbn [run_op].
  - rewrite initAuth_run.
    destruct (localStorage w !! "token") as [t|]; [|reflexivity].
    destruct (String.eqb t EmptyString); [reflexivity|].
    pose proof (getMe_storage w) as [Hs _].
    destruct (api.getMe w) as [[u|e] w1]; simpl in Hs |- *.
    + rewrite lookup_insert_ne by congruence. rewrite Hs. reflexivity.
    + rewrite !lookup_delete_ne by congruence. rewrite Hs. reflexivity.
  - rewrite login_run.
    destruct (api_login_storage email password w) as (r & w' & Hl & He).
    rewrite Hl. pose proof (login_effect_other_keys _ _ _ k He Hk1 Hk2).
    destruct r as [[u t]|e]; assumption.
  - rewrite signup_run.
    destruct (api_signup_storage username email password w) as (r & w' & Hl & He).
    rewrite Hl. pose proof (login_effect_other_keys _ _ _ k He Hk1 Hk2).
    destruct r as [[u t]|e]; assumption.
  - rewrite logout_run. simpl. rewrite !lookup_delete_ne by congruence. reflexivity.
Qed.

(** X13: whatever the session does, it writes the two entries [token]
    and [user] only: every other key of the store keeps its value. *)
Theorem session_touches_two_keys (ops : list SessionOp) (c : AuthProvider.Ctx)
    (k : string) :
  k ≠ "token" → k ≠ "user" →
  localStorage (snd (run_ops ops c)) !! k = localStorage (snd c) !! k.
Proof.
  intros Hk1 Hk2. revert c. induction ops as [|op ops IH]; intros c; simpl.
  - reflexivity.
  - rewrite IH. apply run_op_other_keys; assumption.
Qed.
End Provider.

Section Form.
Context `{Platform}.

Lemma handleSubmit_run (f : AuthForm.State) (a : AuthProvider.Ctx) :
  AuthForm.handleSubmit (f, a) =
    if negb (AuthForm.isLogin f)
       && negb (String.eqb (AuthForm.password f) (AuthForm.confirmPassword f))
    then (Normal tt, (submitted f (VStr "Passwords do not match."), a))
    else
      match run_op (submitOp f) a with
      | (Normal _, a') => (Normal tt, (submitted f VNull, a'))
      | (Throw e, a') =>
          (Normal tt,
           (submitted f (js_or (VStr (message e)) (VStr "An error occurred.")), a'))
      end.
Proof.
  unfold AuthForm.handleSubmit. unfold bind at 1, gets. cbn [fst snd].
  unfold bind at 1. cbn. unfold bind at 1. cbn.
  unfold submitOp, submitted.
  destruct (AuthForm.isLogin f) eqn:Hl; cbn.
  - unfold try_finally, try_catch, AuthForm.auth, zoom. cbn.
    destruct (AuthProvider.login _ _ a) as [[[]|e] a']; reflexivity.
  - destruct (String.eqb _ _); cbn; [|reflexivity].
    unfold try_finally, try_catch, AuthForm.auth, zoom. cbn.
    destruct (AuthProvider.signup _ _ _ a) as [[[]|e] a']; reflexivity.
Qed.

(** X14: a registration whose two passwords differ never leaves the form: no
    request is sent, store and provider are untouched, and the form shows
    "Passwords do not match." with its fields as typed. *)
Theorem password_mismatch_stays_local (f : AuthForm.State) (a : AuthProvider.Ctx) :
  AuthForm.isLogin f = false →
  AuthForm.password f ≠ AuthForm.confirmPassword f →
  AuthForm.handleSubmit (f, a)
    = (Normal tt, (submitted f (VStr "Passwords do not match."), a)).
Proof.
  intros Hl Hne. rewrite handleSubmit_run, Hl.
  destruct (String.eqb _ _) eqn:E; [|reflexivity].
  apply String.eqb_eq in E. contradiction.
Qed.

Lemma run_op_failure_frame (op : SessionOp) (a a' : AuthProvider.Ctx) (e : JSError) :
  op ≠ OpInitAuth → op ≠ OpLogout →
  run_op op a = (Throw e, a') → fst a' = fst a.
Proof.
  intros Hi Ho. destruct a as [s w], a' as [s' w'].
  destruct op; try contradiction; cbn [run_op]; intros Hr.
  - apply login_failure_frame in Hr. apply Hr.
  - apply signup_failure_frame in Hr. apply Hr.
Qed.

(** X15: a submit never rejects.  When the login or signup behind it fails,
    the form shows the message of the error, or "An error occurred." when
    that message is empty; it keeps what was typed, stops loading, and the
    provider has the user and token it had. *)
Theorem failed_submit_shows_message (f : AuthForm.State) (a a' : AuthProvider.Ctx)
    (e : JSError) :
  AuthForm.isLogin f = true ∨ AuthForm.password f = AuthForm.confirmPassword f →
  run_op (submitOp f) a = (Throw e, a') →
  AuthForm.handleSubmit (f, a)
    = (Normal tt,
       (submitted f (VStr (if String.eqb (message e) EmptyString
                           then "An error occurred." else message e)), a')) ∧
  fst a' = fst a.
Proof.
  intros Hguard Hr. rewrite handleSubmit_run, Hr.
  assert (Hg : negb (AuthForm.isLogin f)
               && negb (String.eqb (AuthForm.password f) (AuthForm.confirmPassword f))
               = false).
  { destruct Hguard as [->| ->]; [reflexivity|].
    rewrite String.eqb_refl. apply andb_false_r. }
  rewrite Hg. split.
  - unfold js_or. simpl. destruct (String.eqb (message e) EmptyString); reflexivity.
  - apply (run_op_failure_frame (submitOp f) a a' e); [| |exact Hr];
      unfold submitOp; destruct (AuthForm.isLogin f); discriminate.
Qed.

(** X16: a login the backend refuses with a structured error: the form shows
    the backend's [detail] word for word, one request was sent, the store
    is as it was (no token written) and the provider is still without a
    user. *)
Theorem refused_login_shown_verbatim (f : AuthForm.State) (s : AuthProvider.State)
    (w : World) (resp : Response) (fields : list (string * Value)) (detail : string) :
  AuthForm.isLogin f = true →
  server w (requests w) (loginRequest (AuthForm.email f) (AuthForm.password f))
    = Responded resp →
  ok resp = false →
  payload resp = Json (VObj fields) →
  assoc "detail" fields = Some (VStr detail) →
  detail ≠ EmptyString →
  AuthForm.handleSubmit (f, (s, w))
    = (Normal tt,
       (submitted f (VStr detail),
        (s, add_request (loginRequest (AuthForm.email f) (AuthForm.password f)) w))).
Proof.
  intros Hl Hs Hok Hp Hd Hne.
  assert (Hr : fst (handleResponse resp w) = Throw (MkError "Error" detail)).
  { unfold handleResponse. rewrite Hok. simpl.
    unfold bind, try_catch, liftC, json. rewrite Hp. simpl. rewrite Hd. simpl.
    unfold js_or. simpl.
    destruct (String.eqb detail EmptyString) eqn:E; [|reflexivity].
    apply String.eqb_eq in E. contradiction. }
  rewrite handleSubmit_run, Hl. simpl. unfold submitOp. rewrite Hl. cbn [run_op].
  rewrite login_run, api_login_run. cbv zeta. rewrite Hs, Hr.
  unfold js_or. simpl.
  destruct (String.eqb detail EmptyString) eqn:E; [|reflexivity].
  apply String.eqb_eq in E. contradiction.
Qed.
End Form.

(** ** What the handlers leave alone, and the editor *)

Section Frames.
Context {R : World → World → Prop} `{!Reflexive R, !Transitive R}.

Lemma frames_ret {S A} (wo : S → World) (a : A) : frames wo R (ret a).
Proof. intros s. reflexivity. Qed.

Lemma frames_throw {S A} (wo : S → World) (e : JSError) : frames wo R (@throw S A e).
Proof. intros s. reflexivity. Qed.

Lemma frames_liftC {S A} (wo : S → World) (c : Completion A) : frames wo R (@liftC S A c).
Proof. intros s. reflexivity. Qed.

Lemma frames_gets {S A} (wo : S → World) (f : S → A) : frames wo R (gets f).
Proof. intros s. reflexivity. Qed.

Lemma frames_modify {S} (wo : S → World) (f : S → S) :
  (∀ s, R (wo s) (wo (f s))) → frames wo R (modify f).
Proof. intros Hf s. apply Hf. Qed.

Lemma frames_bind {S A B} (wo : S → World) (m : M S A) (k : A → M S B) :
  frames wo R m → (∀ a, frames wo R (k a)) → frames wo R (bind m k).
Proof.
  intros Hm Hk s. unfold bind. specialize (Hm s).
  destruct (m s) as [[a|e] s']; simpl in Hm |- *; [|exact Hm].
  etransitivity; [exact Hm|apply Hk].
Qed.

Lemma frames_try_catch {S A} (wo : S → World) (m : M S A) (k : JSError → M S A) :
  frames wo R m → (∀ e, frames wo R (k e)) → frames wo R (try_catch m k).
Proof.
  intros Hm Hk s. unfold try_catch. specialize (Hm s).
  destruct (m s) as [[a|e] s']; simpl in Hm |- *; [exact Hm|].
  etransitivity; [exact Hm|apply Hk].
Qed.

Lemma frames_try_finally {S A} (wo : S → World) (m : M S A) (fin : M S unit) :
  frames wo R m → frames wo R fin → frames wo R (try_finally m fin).
Proof.
  intros Hm Hf s. unfold try_finally. specialize (Hm s).
  destruct (m s) as [r s']. specialize (Hf s'). simpl in Hm.
  destruct (fin s') as [[[]|e] s'']; simpl in Hf |- *;
    (etransitivity; [exact Hm|exact Hf]).
Qed.

Lemma frames_zoom {S T A} (wo : S → World) (wo' : T → World)
    (get : S → T) (put : T → S → S) (m : M T A) :
  (∀ s, wo' (get s) = wo s) → (∀ t s, wo (put t s) = wo' t) →
  frames wo' R m → frames wo R (zoom get put m).
Proof.
  intros Hget Hput Hm s. unfold zoom. specialize (Hm (get s)).
  destruct (m (get s)) as [r t']. simpl in Hm |- *.
  rewrite Hput, <- Hget. exact Hm.
Qed.
End Frames.

#[global] Instance storage_same_reflexive : Reflexive storage_same.
Proof. intros w. split; reflexivity. Qed.

#[global] Instance storage_same_transitive : Transitive storage_same.
Proof. intros w1 w2 w3 [? ?] [? ?]. split; congruence. Qed.

Create HintDb handlers.
#[global] Hint Unfold getAuthHeaders handleResponse getItem alert console_error
  api.getMe api.getNotesForUser api.createNote api.updateNote api.deleteNote
  HomePage.world HomePage.setState HomePage.setNotes HomePage.setIsLoading
  HomePage.setError HomePage.setIsModalOpen HomePage.setEditingNote
  HomePage.openAddModal HomePage.openEditModal HomePage.closeModal
  HomePage.fetchNotes HomePage.handleSaveNote HomePage.handleDeleteNote
  NoteModal.parent NoteModal.world NoteModal.setState NoteModal.setTitle
  NoteModal.setContent NoteModal.setIsSaving NoteModal.setIsDeleting
  NoteModal.syncFields NoteModal.handleSave NoteModal.handleDelete
  Screen.rerender Screen.event Screen.pageEvent Screen.clickSave Screen.clickDelete
  Screen.clickCard Screen.clickAdd Screen.clickClose Screen.typeTitle
  Screen.typeContent : handlers.

Ltac frame_step :=
  lazymatch goal with
  | |- frames _ _ (ret _) => apply frames_ret
  | |- frames _ _ (throw _) => apply frames_throw
  | |- frames _ _ (liftC _) => apply frames_liftC
  | |- frames _ _ (gets _) => apply frames_gets
  | |- frames _ _ (bind _ _) => apply frames_bind; [|intros ?]
  | |- frames _ _ (try_catch _ _) => apply frames_try_catch; [|intros ?]
  | |- frames _ _ (try_finally _ _) => apply frames_try_finally
  | |- frames _ _ (zoom _ _ _) =>
      first [ eapply (frames_zoom _ (fun w : World => w));
              [intros ?; reflexivity|intros ? ?; reflexivity|]
            | eapply (frames_zoom _ snd);
              [intros ?; reflexivity|intros ? ?; reflexivity|] ]
  | |- frames _ _ (modify _) => apply frames_modify; intros ?; cbn; reflexivity
  | |- frames _ _ (if ?b then _ else _) => destruct b
  | |- frames _ _ (match (match ?y with _ => _ end) with _ => _ end) => destruct y
  | |- frames _ _ (match ?x with _ => _ end) => destruct x
  | |- frames _ _ (let (_, _) := ?x in _) => destruct x
  | |- frames _ _ _ =>
      progress (autounfold with handlers;
                cbn [NoteModal.onSave NoteModal.onDelete NoteModal.onClose
                     NoteModal.isOpen NoteModal.note Screen.props fst snd])
  end.

Section StoreFrame.
Context `{Platform}.

Lemma fetch_keeps_store (r : Request) : frames (fun w => w) storage_same (fetch r).
Proof. intros w. apply fetch_storage. Qed.

Lemma confirm_keeps_store (q : string) : frames (fun w => w) storage_same (confirm q).
Proof. intros w. split; reflexivity. Qed.

Ltac store_frame :=
  repeat first [ apply fetch_keeps_store | apply confirm_keeps_store
               | apply frames_modify; intros ?; split; reflexivity
               | frame_step ].

Lemma run_event_keeps_store (user : Value) (ev : PageEvent) :
  frames (fun c : Screen.Ctx => snd (snd c)) storage_same (run_event user ev).
Proof.
  destruct ev; cbn [run_event]; store_frame.
Qed.

(** X17: the notes page never writes the session store: whatever the user
    does on it, [localStorage] and its history stay as they were. *)
Theorem notes_page_keeps_session_store (user : Value) (evs : list PageEvent)
    (c : Screen.Ctx) :
  storage_same (snd (snd c)) (snd (snd (run_events user evs c))).
Proof.
  revert c. induction evs as [|ev evs IH]; intros c; simpl.
  - reflexivity.
  - etransitivity; [apply (run_event_keeps_store user ev c)|apply IH].
Qed.

(** X18: opening the editor, closing it and typing in it stay in the page:
    they send no request, show no dialog and raise no alert. *)
Theorem local_events_leave_world (user : Value) (ev : PageEvent) (c : Screen.Ctx) :
  local ev = true → snd (snd (snd (run_event user ev c))) = snd (snd c).
Proof.
  intros Hl.
  assert (Hf : frames (fun c : Screen.Ctx => snd (snd c)) eq (run_event user ev)).
  { destruct ev; try discriminate; cbn [run_event];
      repeat frame_step. }
  symmetry. apply Hf.
Qed.
End StoreFrame.

Section Editor.
Context `{Platform}.

Lemma rerender_run (user : Value) (before : HomePage.State) (m : NoteModal.State)
    (h : HomePage.State) (w : World) :
  Screen.rerender user before (m, (h, w)) =
    (Normal tt,
     (if decide (Screen.deps before = Screen.deps h) then m
      else if HomePage.isModalOpen h then loaded h else m,
      (h, w))).
Proof.
  unfold Screen.rerender, bind, gets. cbn [fst snd].
  destruct (decide _) as [Heq|Hne]; [reflexivity|].
  unfold NoteModal.syncFields. cbn.
  destruct (HomePage.isModalOpen h); reflexivity.
Qed.

Lemma pageEvent_run (user : Value) (handler : M HomePage.Ctx unit)
    (m : NoteModal.State) (h : HomePage.State) (w : World) :
  Screen.pageEvent user handler (m, (h, w)) =
    match handler (h, w) with
    | (Normal _, (h', w')) => Screen.rerender user h (m, (h', w'))
    | (Throw e, p) => (Throw e, (m, p))
    end.
Proof.
  unfold Screen.pageEvent, bind, gets, NoteModal.parent, zoom. cbn [fst snd].
  destruct (handler (h, w)) as [[[]|e] [h' w']]; reflexivity.
Qed.

(** X19: a click on a card while the editor is closed opens the editor on
    that note with the note's title and content in the fields, an empty
    string standing for a missing or empty one; nothing is sent. *)
Theorem card_click_loads_note (user : Value) (m : NoteModal.State)
    (h : HomePage.State) (w : World) (note : Note) :
  HomePage.isModalOpen h = false →
  HomePage.isLoading h = false →
  note ∈ HomePage.notes h →
  Screen.clickCard user note (m, (h, w))
    = (Normal tt,
       (NoteModal.MkState (js_or (types.title note) (VStr EmptyString))
          (js_or (types.content note) (VStr EmptyString)) false false,
        (opened h (Some note), w))).
Proof.
  intros Hclosed Hloading Hin.
  unfold Screen.clickCard. unfold bind at 1, gets. cbn [fst snd].
  rewrite Hloading, (bool_decide_eq_true_2 _ Hin). cbn [negb andb].
  rewrite pageEvent_run.
  change (HomePage.openEditModal note (h, w))
    with (@Normal unit tt, (opened h (Some note), w)).
  cbv iota beta. rewrite rerender_run.
  destruct (decide _) as [Heq|Hne].
  - exfalso. unfold Screen.deps in Heq. cbn in Heq. rewrite Hclosed in Heq.
    discriminate.
  - reflexivity.
Qed.

(** X20: closing the editor and opening it again for a new note discards
    what was typed: the fields are empty, and nothing was sent. *)
Theorem close_then_add_clears (user : Value) (m : NoteModal.State)
    (h : HomePage.State) (w : World) :
  HomePage.isModalOpen h = true →
  bind (Screen.clickClose user) (fun _ => Screen.clickAdd user) (m, (h, w))
    = (Normal tt,
       (NoteModal.MkState (VStr EmptyString) (VStr EmptyString) false false,
        (opened h None, w))).
Proof.
  intros Hopen. unfold bind at 1.
  unfold Screen.clickClose. unfold bind at 1, gets. cbn [fst snd]. rewrite Hopen.
  rewrite pageEvent_run.
  change (HomePage.closeModal (h, w)) with (@Normal unit tt, (closed h, w)).
  cbv iota beta. rewrite rerender_run.
  assert (Hm : (if decide (Screen.deps h = Screen.deps (closed h)) then m
                else if HomePage.isModalOpen (closed h) then loaded (closed h) else m) = m).
  { destruct (decide _); reflexivity. }
  rewrite Hm. clear Hm. unfold Screen.clickAdd. rewrite pageEvent_run.
  change (HomePage.openAddModal (closed h, w))
    with (@Normal unit tt, (opened h None, w)).
  cbv iota beta. rewrite rerender_run.
  destruct (decide _) as [Heq|Hne]; [|reflexivity].
  unfold Screen.deps, closed, opened in Heq. cbn in Heq. discriminate.
Qed.

Lemma saveCall_run (h : HomePage.State) (title content : Value) (w : World) :
  saveCall h title content w =
    bind (fetch (saveRequest (HomePage.editingNote h) title content (bearer w)))
      handleResponse w.
Proof.
  unfold saveCall, saveRequest, api.updateNote, api.createNote.
  destruct (HomePage.editingNote h) as [note|];
    unfold bind at 1; rewrite getAuthHeaders_run; reflexivity.
Qed.

(** X21: a save is addressed by what the editor is open on: a PUT to
    [/notes/<id>] of the note being edited, a POST to [/notes] for a new
    note, with the title and content of the fields.  It is the first
    request of the click, followed at most by the fetch of the refresh. *)
Theorem save_request_target (user : Value) (m : NoteModal.State)
    (h : HomePage.State) (w : World) :
  truthy user = true →
  HomePage.isModalOpen h = true →
  NoteModal.isSaving m = false →
  let sent := saveRequest (HomePage.editingNote h) (NoteModal.title m)
                (NoteModal.content m) (bearer w) in
  ∃ rest,
    requests (snd (snd (snd (Screen.clickSave user (m, (h, w))))))
      = requests w ++ sent :: rest ∧
    (rest = [] ∨ rest = [notesRequest (bearer w)]) ∧
    method sent = match HomePage.editingNote h with
                 | Some _ => "PUT"
                 | None => "POST"
                 end ∧
    url sent = match HomePage.editingNote h with
               | Some note => API_URL +:+ "/notes/" +:+ ToString (types.id note)
               | None => API_URL +:+ "/notes"
               end.
Proof.
  intros Hu Hopen Hsaving sent.
  rewrite (clickSave_run user m h w Hu Hopen Hsaving), saveCall_run, fetch_handle.
  fold sent.
  assert (Hshape : method sent = match HomePage.editingNote h with
                 | Some _ => "PUT"
                 | None => "POST"
                 end ∧
                   url sent = match HomePage.editingNote h with
                              | Some note => API_URL +:+ "/notes/" +:+ ToString (types.id note)
                              | None => API_URL +:+ "/notes"
                              end).
  { subst sent. unfold saveRequest. destruct (HomePage.editingNote h); split; reflexivity. }
  assert (Hok : ∀ w1, w1 = add_request sent w →
            requests (snd (snd (HomePage.fetchNotes user (h, w1))))
              = requests w ++ [sent; notesRequest (bearer w)]).
  { intros w1 ->. rewrite fetchNotes_run, Hu, getNotesForUser_run. cbv zeta.
    change (bearer (add_request sent w)) with (bearer w).
    destruct (server _ _ _) as [e|r]; [|destruct (handleResponse r _).1 as [v|e];
      [destruct v; [..|destruct (mapC normalizeNote items)|]|]];
      cbn; rewrite <- app_assoc; reflexivity. }
  destruct (server w (requests w) sent) as [e|resp].
  - exists []. cbn. repeat split; try apply Hshape. left. reflexivity.
  - destruct (handleResponse resp w).1 as [v|e].
    + exists [notesRequest (bearer w)]. cbn [fst snd].
      rewrite (Hok _ eq_refl). repeat split; try apply Hshape. right. reflexivity.
    + exists []. cbn. repeat split; try apply Hshape. left. reflexivity.
Qed.

(** X22: a delete confirmed twice that the backend fails: the alert "Failed
    to delete note. Please try again." is raised and the error logged, the
    list is not fetched again, and the page and the modal are as they were,
    the editor open on the note. *)
Theorem failed_delete_keeps_editor (user : Value) (m : NoteModal.State)
    (h : HomePage.State) (w w3 : World) (note : Note) (e : JSError) :
  HomePage.editingNote h = Some note →
  HomePage.isModalOpen h = true →
  NoteModal.isDeleting m = false →
  operator w (confirms w) (modalQuestion note) = true →
  operator w (confirms w ++ [(modalQuestion note, true)]) (pageQuestion note) = true →
  api.deleteNote (types.id note)
    (add_confirm (pageQuestion note) true (add_confirm (modalQuestion note) true w))
    = (Throw e, w3) →
  Screen.clickDelete user (m, (h, w))
    = (Normal tt,
       (m, (h, add_console ("Delete error:" +:+ " " +:+ name e +:+ ": " +:+ message e)
                 (add_alert "Failed to delete note. Please try again." w3)))) ∧
  requests w3 = requests w ++ [deleteRequest (types.id note) (bearer w)].
Proof.
  intros Hnote Hopen Hdel Hyes1 Hyes2 Hd.
  rewrite (clickDelete_run user m h w note Hnote Hopen Hdel). cbv zeta.
  rewrite Hyes1, handleDeleteNote_run, Hnote. cbn [operator confirms add_confirm].
  rewrite Hyes2. cbv zeta.
  change (MkWorld (localStorage w) (storageLog w) (server w) (requests w) (operator w)
            (confirms w ++ [(modalQuestion note, true)]) (alerts w) (console w))
    with (add_confirm (modalQuestion note) true w).
  rewrite Hd. split; [reflexivity|].
  rewrite deleteNote_run, fetch_handle in Hd.
  destruct (server _ _ _) as [e'|r]; [|destruct (handleResponse r _).1];
    try discriminate Hd; injection Hd as _ <-; reflexivity.
Qed.

(** X23: a delete confirmed twice that the backend accepts: the DELETE goes
    to [/notes/<id>] of the note in the editor, the list is fetched again,
    and the editor is closed on the page that fetch leaves. *)
Theorem confirmed_delete_refreshes_and_closes (user : Value) (m : NoteModal.State)
    (h : HomePage.State) (w w3 : World) (note : Note) :
  HomePage.editingNote h = Some note →
  HomePage.isModalOpen h = true →
  NoteModal.isDeleting m = false →
  operator w (confirms w) (modalQuestion note) = true →
  operator w (confirms w ++ [(modalQuestion note, true)]) (pageQuestion note) = true →
  api.deleteNote (types.id note)
    (add_confirm (pageQuestion note) true (add_confirm (modalQuestion note) true w))
    = (Normal tt, w3) →
  ∃ h1 w4,
    HomePage.fetchNotes user (h, w3) = (Normal tt, (h1, w4)) ∧
    Screen.clickDelete user (m, (h, w)) = (Normal tt, (m, (closed h1, w4))) ∧
    requests w3 = requests w ++ [deleteRequest (types.id note) (bearer w)].
Proof.
  intros Hnote Hopen Hdel Hyes1 Hyes2 Hd.
  rewrite (clickDelete_run user m h w note Hnote Hopen Hdel). cbv zeta.
  rewrite Hyes1, handleDeleteNote_run, Hnote. cbn [operator confirms add_confirm].
  rewrite Hyes2. cbv zeta.
  change (MkWorld (localStorage w) (storageLog w) (server w) (requests w) (operator w)
            (confirms w ++ [(modalQuestion note, true)]) (alerts w) (console w))
    with (add_confirm (modalQuestion note) true w).
  rewrite Hd.
  pose proof (fetchNotes_returns user (h, w3)) as Hr.
  destruct (HomePage.fetchNotes user (h, w3)) as [r [h1 w4]]. simpl in Hr. subst r.
  exists h1, w4. split; [reflexivity|]. split; [reflexivity|].
  rewrite deleteNote_run, fetch_handle in Hd.
  destruct (server _ _ _) as [e'|r]; [|destruct (handleResponse r _).1];
    try discriminate Hd; injection Hd as <-; reflexivity.
Qed.
End Editor.

(** ** More concrete runs *)

Section MoreExamples.
#[local] Existing Instance examplePlatform.

(** A delete from a signed-in browser carries the bearer of its token. *)
Lemma authenticated_call_carries_bearer_witness :
  let w := signedIn notesBackend (always true) in
  localStorage w !! "token" = Some "tok" ∧ "tok" ≠ EmptyString ∧
  ∃ r, requests (snd (perform (DeleteNote (VNum 1)) w)) = requests w ++ [r] ∧
       headers r = [("Authorization", "Bearer tok")].
Proof.
  intros w. split; [reflexivity|]. split; [discriminate|].
  destruct (authenticated_call_carries_bearer (DeleteNote (VNum 1)) w "tok")
    as (r & Hr & Hh & _); [reflexivity|discriminate|].
  exists r. split; assumption.
Defined.

(** A login against the backend with one account. *)
Lemma login_request_sequence_witness :
  let w := freshWorld sessionBackend (always false) in
  let resp := MkResponse 200 (Json (VObj [("access_token", VStr "tok")])) in
  server w (requests w) (loginRequest "alice@x.com" "pw1234") = Responded resp ∧
  fst (handleResponse resp w) = Normal (VObj [("access_token", VStr "tok")]) ∧
  getProp (VObj [("access_token", VStr "tok")]) "access_token" = Normal (VStr "tok") ∧
  ToString (VStr "tok") ≠ EmptyString ∧
  requests (snd (api.login "alice@x.com" "pw1234" w))
    = requests w ++ [loginRequest "alice@x.com" "pw1234";
                     meRequest [("Authorization", "Bearer tok")]].
Proof.
  intros w resp.
  split; [reflexivity|]. split; [reflexivity|]. split; [reflexivity|].
  split; [discriminate|].
  apply (login_request_sequence "alice@x.com" "pw1234" w resp
           (VObj [("access_token", VStr "tok")]) (VStr "tok"));
    [reflexivity|reflexivity|reflexivity|discriminate].
Defined.

(** A registration the backend refuses. *)
Lemma signup_is_register_then_login_witness :
  let w := freshWorld refusing (always false) in
  server w (requests w) (signupRequest "bob" "bob@x.com" "pw1234")
    = Responded unauthorized ∧
  ¬ accepted unauthorized ∧
  ∃ e, api.signup "bob" "bob@x.com" "pw1234" w
         = (Throw e, add_request (signupRequest "bob" "bob@x.com" "pw1234") w).
Proof.
  intros w.
  assert (Hn : ¬ accepted unauthorized) by (intros [Hok _]; discriminate).
  split; [reflexivity|]. split; [exact Hn|].
  destruct (signup_is_register_then_login "bob" "bob@x.com" "pw1234" w unauthorized)
    as [_ Hrefused]; [reflexivity|].
  apply Hrefused, Hn.
Defined.

(** A 204 makes the delete a success; a 500 does not. *)
Lemma deleteNote_success_iff_witness :
  fst (api.deleteNote (VNum 1) (signedIn notesBackend (always true))) = Normal tt ∧
  fst (api.deleteNote (VNum 1) (signedIn brokenDelete (always true))) ≠ Normal tt.
Proof.
  split.
  - apply deleteNote_success_iff. eexists. split; [reflexivity|].
    split; [reflexivity|left; reflexivity].
  - intros Hd. apply deleteNote_success_iff in Hd as (resp & Hs & Hok & _).
    injection Hs as <-. discriminate.
Defined.

(** The three notes of the backend, read. *)
Lemma getNotesForUser_normalises_witness :
  let w := signedIn notesBackend (always true) in
  let l := [note 1 "Groceries" 1704067200000; note 2 "Ideas" 1704153600000;
            note 3 "Chores" 1704067200000] in
  api.getNotesForUser w = (Normal l, snd (api.getNotesForUser w)) ∧
  ∃ items, length l = length items ∧ Forall2 normalised items l.
Proof.
  intros w l. split; [reflexivity|].
  destruct (getNotesForUser_normalises w (snd (api.getNotesForUser w)) l)
    as (resp & items & _ & _ & _ & Hlen & Hall); [reflexivity|].
  exists items. split; assumption.
Defined.

(** One unreadable date among two notes: the page shows none of them. *)
Lemma bad_date_hides_all_notes_witness :
  let w := signedIn spoiled (always true) in
  let items := [rawNote 1 "Groceries" "2024-01-01T00:00:00Z";
                rawNote 2 "Ideas" "yesterday"] in
  truthy alice = true ∧
  server w (requests w) (notesRequest (bearer w))
    = Responded (MkResponse 200 (Json (VArr items))) ∧
  rawNote 2 "Ideas" "yesterday" ∈ items ∧
  Date_time (own (rawNote 2 "Ideas" "yesterday") "last_update") = None ∧
  HomePage.notes (fst (snd (HomePage.fetchNotes alice (listed, w))))
    = HomePage.notes listed ∧
  HomePage.error (fst (snd (HomePage.fetchNotes alice (listed, w))))
    = Some "Failed to fetch notes.".
Proof.
  intros w items.
  assert (Hin : rawNote 2 "Ideas" "yesterday" ∈ items) by (right; left).
  split; [reflexivity|]. split; [reflexivity|]. split; [exact Hin|].
  split; [reflexivity|].
  assert (Hbad : Date_time (own (rawNote 2 "Ideas" "yesterday") "last_update") = None
                 ∨ Date_time (own (rawNote 2 "Ideas" "yesterday") "created_on") = None)
    by (left; reflexivity).
  rewrite (bad_date_hides_all_notes alice listed w
             (MkResponse 200 (Json (VArr items))) items
             (rawNote 2 "Ideas" "yesterday") eq_refl eq_refl eq_refl Hin Hbad).
  split; reflexivity.
Defined.

(** The published list, sorted again. *)
Lemma sort_fixpoint_witness :
  descending types.last_update (HomePage.notes listed) ∧
  sort (laterFirst types.last_update) (HomePage.notes listed) = HomePage.notes listed.
Proof.
  assert (Hd : descending types.last_update (HomePage.notes listed)).
  { apply sorted_descending. repeat constructor; unfold noEarlier; simpl; lia. }
  split; [exact Hd|]. apply sort_fixpoint, Hd.
Defined.

(** "Ideas" is the only note of the second day: it comes first. *)
Lemma latest_note_is_first_witness :
  let w := signedIn notesBackend (always true) in
  let l := [note 1 "Groceries" 1704067200000; note 2 "Ideas" 1704153600000;
            note 3 "Chores" 1704067200000] in
  let n := note 2 "Ideas" 1704153600000 in
  truthy alice = true ∧
  api.getNotesForUser w = (Normal l, snd (api.getNotesForUser w)) ∧
  n ∈ l ∧
  (∀ m, m ∈ l → m ≠ n → types.last_update m < types.last_update n) ∧
  ∃ rest, HomePage.notes (fst (snd (HomePage.fetchNotes alice (HomePage.initial, w))))
            = n :: rest.
Proof.
  intros w l n.
  assert (Hin : n ∈ l) by (right; left).
  assert (Hmax : ∀ m, m ∈ l → m ≠ n → types.last_update m < types.last_update n).
  { intros m Hm Hne.
    repeat (apply elem_of_cons in Hm as [->|Hm]); try (simpl; lia);
      try contradiction. inversion Hm. }
  split; [reflexivity|]. split; [reflexivity|]. split; [exact Hin|].
  split; [exact Hmax|].
  apply (latest_note_is_first alice HomePage.initial w
           (snd (api.getNotesForUser w)) l n); [reflexivity|reflexivity|exact Hin|exact Hmax].
Defined.

(** A login that succeeds: memory and store agree. *)
Lemma successful_login_commits_witness :
  let w := freshWorld sessionBackend (always false) in
  let op := OpLogin "alice@x.com" "pw1234" in
  let after := snd (run_op op (loggedOut, w)) in
  op ≠ OpInitAuth ∧ op ≠ OpLogout ∧
  run_op op (loggedOut, w) = (Normal tt, after) ∧
  AuthProvider.token (fst after) = VStr "tok" ∧
  localStorage (snd after) !! "token" = Some (ToString (AuthProvider.token (fst after))) ∧
  localStorage (snd after) !! "user"
    = Some (ToString (stringify (AuthProvider.user (fst after)))).
Proof.
  intros w op after.
  split; [discriminate|]. split; [discriminate|]. split; [reflexivity|].
  split; [reflexivity|].
  destruct (successful_login_commits op loggedOut (fst after) w (snd after))
    as (Ht & Hu & _); [discriminate|discriminate|reflexivity|].
  split; assumption.
Defined.

(** A reload with a token the backend knows. *)
Lemma initAuth_valid_token_witness :
  let w := signedIn sessionBackend (always false) in
  localStorage w !! "token" = Some "tok" ∧ "tok" ≠ EmptyString ∧
  api.getMe w = (Normal alice, snd (api.getMe w)) ∧
  ∃ w', AuthProvider.initAuth (AuthProvider.initial, w)
          = (Normal tt, (AuthProvider.MkState alice (VStr "tok") false, w')) ∧
        localStorage w' = <["user" := ToString (stringify alice)]> (localStorage w).
Proof.
  intros w. split; [reflexivity|]. split; [discriminate|]. split; [reflexivity|].
  destruct (initAuth_valid_token AuthProvider.initial w (snd (api.getMe w)) "tok" alice)
    as (w' & Hrun & Hst & _); [reflexivity|discriminate|reflexivity|].
  exists w'. split; assumption.
Defined.

(** A first visit. *)
Lemma initAuth_without_token_witness :
  let w := freshWorld offline (always false) in
  no_token w ∧
  AuthProvider.initAuth (AuthProvider.initial, w) = (Normal tt, (loggedOut, w)).
Proof.
  intros w. assert (Hn : no_token w) by (left; reflexivity).
  split; [exact Hn|]. apply (initAuth_without_token AuthProvider.initial w Hn).
Defined.

(** A session in a browser that also keeps a theme. *)
Lemma session_touches_two_keys_witness :
  "theme" ≠ "token" ∧ "theme" ≠ "user" ∧
  localStorage (snd (run_ops [OpInitAuth; OpLogin "alice@x.com" "pw1234"; OpLogout]
                       (AuthProvider.initial, themedWorld))) !! "theme" = Some "dark".
Proof.
  split; [discriminate|]. split; [discriminate|].
  rewrite (session_touches_two_keys _ (AuthProvider.initial, themedWorld) "theme");
    [reflexivity|discriminate|discriminate].
Defined.

(** A registration with a slip in the repeated password. *)
Lemma password_mismatch_stays_local_witness :
  let a := (loggedOut, freshWorld sessionBackend (always false)) in
  AuthForm.isLogin slipForm = false ∧
  AuthForm.password slipForm ≠ AuthForm.confirmPassword slipForm ∧
  AuthForm.handleSubmit (slipForm, a)
    = (Normal tt, (submitted slipForm (VStr "Passwords do not match."), a)).
Proof.
  intros a. split; [reflexivity|]. split; [discriminate|].
  apply password_mismatch_stays_local; [reflexivity|discriminate].
Defined.

(** A login while the backend is not reachable. *)
Lemma failed_submit_shows_message_witness :
  let a := (loggedOut, freshWorld offline (always false)) in
  (AuthForm.isLogin loginForm = true
   ∨ AuthForm.password loginForm = AuthForm.confirmPassword loginForm) ∧
  run_op (submitOp loginForm) a
    = (Throw (MkError "TypeError" "Failed to fetch"), snd (run_op (submitOp loginForm) a)) ∧
  AuthForm.handleSubmit (loginForm, a)
    = (Normal tt, (submitted loginForm (VStr "Failed to fetch"),
                   snd (run_op (submitOp loginForm) a))).
Proof.
  intros a.
  assert (Hg : AuthForm.isLogin loginForm = true
               ∨ AuthForm.password loginForm = AuthForm.confirmPassword loginForm)
    by (left; reflexivity).
  split; [exact Hg|]. split; [reflexivity|].
  destruct (failed_submit_shows_message loginForm a (snd (run_op (submitOp loginForm) a))
              (MkError "TypeError" "Failed to fetch") Hg eq_refl) as [Hrun _].
  exact Hrun.
Defined.

(** A login with a wrong password. *)
Lemma refused_login_shown_verbatim_witness :
  let w := freshWorld refusing (always false) in
  let sent := loginRequest "alice@x.com" "pw1234" in
  AuthForm.isLogin loginForm = true ∧
  server w (requests w) sent = Responded unauthorized ∧
  ok unauthorized = false ∧
  AuthForm.handleSubmit (loginForm, (loggedOut, w))
    = (Normal tt,
       (submitted loginForm (VStr "Incorrect email or password"),
        (loggedOut, add_request sent w))).
Proof.
  intros w sent. split; [reflexivity|]. split; [reflexivity|]. split; [reflexivity|].
  apply (refused_login_shown_verbatim loginForm loggedOut w unauthorized
           [("detail", VStr "Incorrect email or password")]
           "Incorrect email or password");
    [reflexivity|reflexivity|reflexivity|reflexivity|reflexivity|discriminate].
Defined.

(** Typing a title. *)
Lemma local_events_leave_world_witness :
  let c := (typed, (editing (note 1 "Groceries" 1704067200000),
                    signedIn notesBackend (always true))) in
  local (TypeTitle "Shopping") = true ∧
  snd (snd (snd (run_event alice (TypeTitle "Shopping") c))) = snd (snd c).
Proof.
  intros c. split; [reflexivity|].
  apply (local_events_leave_world alice (TypeTitle "Shopping") c). reflexivity.
Defined.

(** A click on the card of "Groceries". *)
Lemma card_click_loads_note_witness :
  let n := note 1 "Groceries" 1704067200000 in
  let w := signedIn notesBackend (always true) in
  HomePage.isModalOpen listed = false ∧ HomePage.isLoading listed = false ∧
  n ∈ HomePage.notes listed ∧
  Screen.clickCard alice n (NoteModal.initial, (listed, w))
    = (Normal tt,
       (NoteModal.MkState (VStr "Groceries") (VStr "milk, eggs") false false,
        (opened listed (Some n), w))).
Proof.
  intros n w.
  assert (Hin : n ∈ HomePage.notes listed) by (right; left).
  split; [reflexivity|]. split; [reflexivity|]. split; [exact Hin|].
  rewrite (card_click_loads_note alice NoteModal.initial listed w n eq_refl eq_refl Hin).
  reflexivity.
Defined.

(** Cancel, then the floating button. *)
Lemma close_then_add_clears_witness :
  let h := editing (note 1 "Groceries" 1704067200000) in
  let w := signedIn notesBackend (always true) in
  HomePage.isModalOpen h = true ∧
  bind (Screen.clickClose alice) (fun _ => Screen.clickAdd alice) (typed, (h, w))
    = (Normal tt,
       (NoteModal.MkState (VStr EmptyString) (VStr EmptyString) false false,
        (opened h None, w))).
Proof.
  intros h w. split; [reflexivity|].
  apply (close_then_add_clears alice typed h w). reflexivity.
Defined.

(** A save of the edited "Groceries". *)
Lemma save_request_target_witness :
  let h := editing (note 1 "Groceries" 1704067200000) in
  let w := signedIn notesBackend (always true) in
  truthy alice = true ∧ HomePage.isModalOpen h = true ∧
  NoteModal.isSaving typed = false ∧
  ∃ sent rest,
    requests (snd (snd (snd (Screen.clickSave alice (typed, (h, w))))))
      = requests w ++ sent :: rest ∧
    method sent = "PUT" ∧ url sent = "http://localhost:8000/notes/1".
Proof.
  intros h w. split; [reflexivity|]. split; [reflexivity|]. split; [reflexivity|].
  destruct (save_request_target alice typed h w eq_refl eq_refl eq_refl)
    as (rest & Hreq & _ & Hm & Hu).
  eexists _, rest. split; [exact Hreq|]. split; [exact Hm|exact Hu].
Defined.

(** A delete confirmed twice against a backend that fails it. *)
Lemma failed_delete_keeps_editor_witness :
  let n := note 1 "Groceries" 1704067200000 in
  let h := editing n in
  let w := signedIn brokenDelete (always true) in
  HomePage.editingNote h = Some n ∧ HomePage.isModalOpen h = true ∧
  NoteModal.isDeleting typed = false ∧
  operator w (confirms w) (modalQuestion n) = true ∧
  fst (snd (Screen.clickDelete alice (typed, (h, w)))) = typed ∧
  fst (snd (snd (Screen.clickDelete alice (typed, (h, w))))) = h ∧
  alerts (snd (snd (snd (Screen.clickDelete alice (typed, (h, w))))))
    = ["Failed to delete note. Please try again."].
Proof.
  intros n h w.
  split; [reflexivity|]. split; [reflexivity|]. split; [reflexivity|].
  split; [reflexivity|].
  destruct (failed_delete_keeps_editor alice typed h w
              (snd (api.deleteNote (types.id n)
                      (add_confirm (pageQuestion n) true
                         (add_confirm (modalQuestion n) true w))))
              n (MkError "Error" "An unknown error occurred.")
              eq_refl eq_refl eq_refl eq_refl eq_refl eq_refl) as [Hrun _].
  rewrite Hrun. repeat split.
Defined.

(** A delete confirmed twice against a backend that accepts it. *)
Lemma confirmed_delete_refreshes_and_closes_witness :
  let n := note 1 "Groceries" 1704067200000 in
  let h := editing n in
  let w := signedIn notesBackend (always true) in
  HomePage.editingNote h = Some n ∧ HomePage.isModalOpen h = true ∧
  NoteModal.isDeleting typed = false ∧
  operator w (confirms w) (modalQuestion n) = true ∧
  ∃ h1 w4,
    Screen.clickDelete alice (typed, (h, w)) = (Normal tt, (typed, (closed h1, w4))) ∧
    HomePage.isModalOpen (closed h1) = false.
Proof.
  intros n h w.
  split; [reflexivity|]. split; [reflexivity|]. split; [reflexivity|].
  split; [reflexivity|].
  destruct (confirmed_delete_refreshes_and_closes alice typed h w
              (snd (api.deleteNote (types.id n)
                      (add_confirm (pageQuestion n) true
                         (add_confirm (modalQuestion n) true w))))
              n eq_refl eq_refl eq_refl eq_refl eq_refl eq_refl)
    as (h1 & w4 & _ & Hrun & _).
  exists h1, w4. split; [exact Hrun|reflexivity].
Defined.
End MoreExamples.
